(** * The pyrevm benchmark runner ([runners/pyrevm/runner.py])

    A shallow embedding of the runner and of the Python built-ins it calls,
    followed by the properties of the benchmarking protocol.

    - Python [str] is [string] (a code point above 255 behaves like any other
      character that is neither a hexadecimal digit nor ASCII whitespace);
    - Python [bytes] is a list of integers in [0, 256);
    - Python [int] is [Z]; Python [float] is an IEEE 754 binary64 value, here a
      [spec_float] with precision 53 and maximal exponent 1024;
    - an uncaught exception ends the run: fallible code returns a sum;
    - the engine object [evm] is mutated in place by the source: here its state
      is passed explicitly; an engine operation may raise;
    - the clock, the calls of [print] and the calls made to the engine are
      recorded in one chronological trace; what [sys.stdout] has passed on to
      the output at a given point is computed from the trace. *)

From Stdlib Require Import ZArith NArith PArith List String Ascii Bool Lia.
From Stdlib Require Import Floats.SpecFloat.
Import ListNotations.

Local Open Scope Z_scope.

(** ** Python built-ins used by the runner *)

Module Py.

Definition bytes := list Z.

(** Exceptions raised by the built-ins the runner calls. *)
Inductive BuiltinError : Type :=
| ValueError          (* bytes.fromhex: non-hexadecimal number found *)
| TypeError           (* bytes.fromhex(None), range(None) *)
| OSError             (* open(): no such file, permission denied, ... *)
| OverflowError       (* int too large to convert to float *)
| ZeroDivisionError.  (* float division by zero *)

(** *** [bytes.fromhex] (CPython, [_PyBytes_FromHex]) *)

(** [Py_ISSPACE]: the six ASCII whitespace characters, TAB LF VT FF CR and
    the space. *)
Definition Py_ISSPACE (c : ascii) : bool :=
  let n := Z.of_N (N_of_ascii c) in
  ((9 <=? n) && (n <=? 13)) || (n =? 32).

(** [_PyLong_DigitValue]: the value of a character as a digit in base 36,
    and 37 for every other character. *)
Definition _PyLong_DigitValue (c : ascii) : Z :=
  let n := Z.of_N (N_of_ascii c) in
  if (48 <=? n) && (n <=? 57) then n - 48
  else if (97 <=? n) && (n <=? 122) then n - 87
  else if (65 <=? n) && (n <=? 90) then n - 55
  else 37.

(** The decoding loop: whitespace is skipped where a byte may start; then
    two digits are read, one right after the other. *)
Fixpoint fromhex (str : string) : BuiltinError + bytes :=
  match str with
  | EmptyString => inr []
  | String c rest =>
      if Py_ISSPACE c then fromhex rest
      else
        let top := _PyLong_DigitValue c in
        if 16 <=? top then inl ValueError
        else
          match rest with
          | EmptyString => inl ValueError
          | String d rest' =>
              let bot := _PyLong_DigitValue d in
              if 16 <=? bot then inl ValueError
              else
                match fromhex rest' with
                | inl e => inl e
                | inr bs => inr ((Z.shiftl top 4 + bot) :: bs)
                end
          end
  end.

(** [bytes.fromhex(x)] where [x] may be [None]: the argument must be a
    [str]. *)
Definition bytes_fromhex (x : option string) : BuiltinError + bytes :=
  match x with
  | None => inl TypeError
  | Some s => fromhex s
  end.

(** *** [len(range(n))]: [range(n)] is empty when [n <= 0];
    [range(None)] raises. *)
Definition range_len (n : option Z) : BuiltinError + nat :=
  match n with
  | None => inl TypeError
  | Some n => inr (if n <=? 0 then O else Z.to_nat n)
  end.

(** *** [int / float] *)

Definition prec : Z := 53.
Definition emax : Z := 1024.

Definition float := spec_float.

(** The literal [1e6]: 1000000 = 8589934592000000 * 2^-33. *)
Definition float_1e6 : float := S754_finite false 8589934592000000 (-33).

(** [PyLong_AsDouble]: the nearest double (ties to even), [OverflowError]
    when that is not finite. *)
Definition PyLong_AsDouble (z : Z) : BuiltinError + float :=
  match binary_normalize prec emax z 0 false with
  | S754_infinity _ => inl OverflowError
  | f => inr f
  end.

Definition float_is_zero (f : float) : bool :=
  match f with S754_zero _ => true | _ => false end.

(** [a / b] for an [int] [a] and a [float] [b]: [a] is converted first. *)
Definition int_truediv_float (a : Z) (b : float) : BuiltinError + float :=
  match PyLong_AsDouble a with
  | inl e => inl e
  | inr x =>
      if float_is_zero b then inl ZeroDivisionError
      else inr (SFdiv prec emax x b)
  end.

(** [0.0 <= f] on doubles, and finiteness. *)
Definition float_nonneg (f : float) : bool := SFleb (S754_zero false) f.

Definition float_is_finite (f : float) : bool :=
  match f with
  | S754_zero _ | S754_finite _ _ _ => true
  | _ => false
  end.

End Py.

(** ** The execution engine

    [pyrevm.EVM] is an external collaborator. The runner uses its constructor,
    [deploy], [message_call] and the [result] attribute, which holds the
    outcome of the last operation and whose [is_success] the runner reads
    after the deployment. The engine state that the source mutates in place
    is threaded through the operations.

    An operation either returns or raises [RuntimeError] with a message:
    [EVM_deploy_raises] and [EVM_message_call_raises] give the message when
    it raises ([pyrevm] raises on a deployment or a call that reverts or
    halts), and [EVM_deploy] and [EVM_message_call] give the state of the
    engine afterwards and, when the operation returns, what it returns. A
    deployment raises only when it fails: after one that raised, [result]
    is not a success. *)

Class Engine : Type := {
  EVM : Type;
  Address : Type;
  ExecutionResult : Type;
  EVM_new : EVM;
  EVM_deploy : EVM -> string -> Py.bytes -> Z -> EVM * Address;
  EVM_message_call : EVM -> string -> Address -> Py.bytes -> Z -> EVM * Py.bytes;
  EVM_result : EVM -> ExecutionResult;
  is_success : ExecutionResult -> bool;
  EVM_deploy_raises : EVM -> string -> Py.bytes -> Z -> option string;
  EVM_message_call_raises :
    EVM -> string -> Address -> Py.bytes -> Z -> option string;
  deploy_raises_on_failure :
    forall evm deployer code gas msg,
      EVM_deploy_raises evm deployer code gas = Some msg ->
      is_success (EVM_result (fst (EVM_deploy evm deployer code gas))) = false
}.

(** ** The operating system: the file system seen through
    [open(path, mode="r").read()] ([None] when [open] raises), and the
    successive readings of [time.perf_counter_ns()]. *)

Record OS : Type := {
  read_text : string -> option string;
  perf_counter_ns_reading : nat -> Z
}.

(** ** The runner *)

Module Runner.
Section WithEngine.

Context {engine : Engine}.
Variable os : OS.

Definition GAS_LIMIT : Z := 1000000000.
Definition ZERO_ADDRESS : string := "0x0000000000000000000000000000000000000000".
Definition CALLER_ADDRESS : string := "0x1000000000000000000000000000000000000001".

(** Uncaught exceptions. [assert c, x] raises [AssertionError(x)];
    [RuntimeError] is what an engine operation raises. *)
Inductive Exception : Type :=
| Builtin (e : Py.BuiltinError)
| AssertionError_message (msg : string)
| AssertionError_result (r : ExecutionResult)
| RuntimeError (msg : string).

(** What the run does, in the order in which it does it. *)
Inductive Event : Type :=
| Deploy (deployer : string) (code : Py.bytes) (gas : Z)
| MessageCall (caller : string) (to : Address) (calldata : Py.bytes) (gas : Z)
| PerfCounter (t : Z)
| Print (x : Py.float).

Record World : Type := {
  clock_reads : nat;
  trace : list Event
}.

Definition initial_world : World := {| clock_reads := O; trace := [] |}.

Definition log (e : Event) (w : World) : World :=
  {| clock_reads := clock_reads w; trace := trace w ++ [e] |}.

(** State and exception monad. *)
Definition M (A : Type) : Type := World -> (Exception + A) * World.

Definition ret {A} (a : A) : M A := fun w => (inr a, w).

Definition raise {A} (e : Exception) : M A := fun w => (inl e, w).

Definition bind {A B} (m : M A) (k : A -> M B) : M B :=
  fun w =>
    match m w with
    | (inl e, w') => (inl e, w')
    | (inr a, w') => k a w'
    end.

Definition builtin {A} (r : Py.BuiltinError + A) : M A :=
  match r with
  | inl e => raise (Builtin e)
  | inr a => ret a
  end.

Notation "x <- m ;; k" := (bind m (fun x => k))
  (at level 61, m at next level, right associativity).
Notation "m ;;; k" := (bind m (fun _ => k))
  (at level 61, right associativity).

Definition perf_counter_ns : M Z :=
  fun w =>
    let t := perf_counter_ns_reading os (clock_reads w) in
    (inr t, {| clock_reads := S (clock_reads w);
               trace := trace w ++ [PerfCounter t] |}).

Definition print (x : Py.float) : M unit :=
  fun w => (inr tt, log (Print x) w).

Definition deploy (evm : EVM) (deployer : string) (code : Py.bytes) (gas : Z)
  : M (EVM * Address) :=
  fun w =>
    (match EVM_deploy_raises evm deployer code gas with
     | Some msg => inl (RuntimeError msg)
     | None => inr (EVM_deploy evm deployer code gas)
     end,
     log (Deploy deployer code gas) w).

Definition message_call (evm : EVM) (caller : string) (to : Address)
           (calldata : Py.bytes) (gas : Z) : M (EVM * Py.bytes) :=
  fun w =>
    (match EVM_message_call_raises evm caller to calldata gas with
     | Some msg => inl (RuntimeError msg)
     | None => inr (EVM_message_call evm caller to calldata gas)
     end,
     log (MessageCall caller to calldata gas) w).

(** [_load_contract_data]. *)
Definition _load_contract_data (data_file_path : option string) : M Py.bytes :=
  match data_file_path with
  | None => raise (AssertionError_message "Contract code path is required")
  | Some path =>
      match read_text os path with
      | None => raise (Builtin Py.OSError)
      | Some text => builtin (Py.bytes_fromhex (Some text))
      end
  end.

(** [_construct_evm]. *)
Definition _construct_evm : EVM := EVM_new.

(** The closure [bench] of [_benchmark]; what [message_call] returns is
    dropped. *)
Definition bench (evm : EVM) (caller_address : string)
           (contract_address : Address) (call_data : Py.bytes) : M EVM :=
  r <- message_call evm caller_address contract_address call_data GAS_LIMIT ;;
  ret (fst r).

(** The body of [for _ in range(num_runs)], run [n] times. *)
Fixpoint timed_loop (n : nat) (evm : EVM) (caller_address : string)
         (contract_address : Address) (call_data : Py.bytes) : M EVM :=
  match n with
  | O => ret evm
  | S n' =>
      start <- perf_counter_ns ;;
      evm' <- bench evm caller_address contract_address call_data ;;
      end_ <- perf_counter_ns ;;
      ms <- builtin (Py.int_truediv_float (end_ - start) Py.float_1e6) ;;
      print ms ;;;
      timed_loop n' evm' caller_address contract_address call_data
  end.

(** [_benchmark]. *)
Definition _benchmark (evm : EVM) (caller_address : string)
           (contract_data call_data : Py.bytes) (num_runs : option Z) : M unit :=
  d <- deploy evm caller_address contract_data GAS_LIMIT ;;
  let evm := fst d in
  let contract_address := snd d in
  (if is_success (EVM_result evm) then ret tt
   else raise (AssertionError_result (EVM_result evm))) ;;;
  n <- builtin (Py.range_len num_runs) ;;
  timed_loop n evm caller_address contract_address call_data ;;;
  ret tt.

(** The namespace returned by [parse_args]: no option is declared
    required, so each attribute is [None] when its option is not given. *)
Record Namespace : Type := {
  contract_code_path : option string;
  calldata : option string;
  num_runs : option Z
}.

(** [main], given the parsed arguments. *)
Definition main (args : Namespace) : M unit :=
  contract_data <- _load_contract_data (contract_code_path args) ;;
  let evm := _construct_evm in
  call_data <- builtin (Py.bytes_fromhex (calldata args)) ;;
  _benchmark evm CALLER_ADDRESS contract_data call_data (num_runs args).

(** The exit status of the interpreter: 1 after an uncaught exception. *)
Definition exit_status {A} (r : Exception + A) : Z :=
  match r with
  | inl _ => 1
  | inr _ => 0
  end.


(** Observations on a trace. *)
Definition is_deploy (e : Event) : bool :=
  match e with Deploy _ _ _ => true | _ => false end.

Definition is_message_call (e : Event) : bool :=
  match e with MessageCall _ _ _ _ => true | _ => false end.

Definition printed (tr : list Event) : list Py.float :=
  flat_map (fun e => match e with Print x => [x] | _ => [] end) tr.

Definition deployments (tr : list Event) : list Event := filter is_deploy tr.

Definition invocations (tr : list Event) : list Event := filter is_message_call tr.

(** Assumptions on the clock: [perf_counter_ns] reads a signed 64-bit
    nanosecond counter, and the counter never goes back. *)
Definition int64_clock : Prop :=
  forall k, - 2 ^ 63 <= perf_counter_ns_reading os k < 2 ^ 63.

Definition monotonic_clock : Prop :=
  forall k, perf_counter_ns_reading os k <= perf_counter_ns_reading os (S k).

(** The events of one iteration that takes the clock readings [k] and
    [k + 1] and prints [x], and of successive iterations printing [lines]. *)
Definition iteration_events (caller_address : string) (contract_address : Address)
           (call_data : Py.bytes) (k : nat) (x : Py.float) : list Event :=
  [ PerfCounter (perf_counter_ns_reading os k);
    MessageCall caller_address contract_address call_data GAS_LIMIT;
    PerfCounter (perf_counter_ns_reading os (S k));
    Print x ].

Fixpoint loop_events (caller_address : string) (contract_address : Address)
         (call_data : Py.bytes) (k : nat) (lines : list Py.float) : list Event :=
  match lines with
  | [] => []
  | x :: lines' =>
      iteration_events caller_address contract_address call_data k x
      ++ loop_events caller_address contract_address call_data (S (S k)) lines'
  end.

(** The elapsed times, in nanoseconds, of [n] successive iterations that
    start at clock reading [k]. *)
Fixpoint elapsed_ns (k : nat) (n : nat) : list Z :=
  match n with
  | O => []
  | S n' =>
      (perf_counter_ns_reading os (S k) - perf_counter_ns_reading os k)
      :: elapsed_ns (S (S k)) n'
  end.

(** The state of the engine after [n] successive calls that returned. *)
Fixpoint engine_after_calls (n : nat) (evm : EVM) (caller_address : string)
         (contract_address : Address) (call_data : Py.bytes) : EVM :=
  match n with
  | O => evm
  | S n' =>
      engine_after_calls n'
        (fst (EVM_message_call evm caller_address contract_address call_data
                GAS_LIMIT))
        caller_address contract_address call_data
  end.

(** Call number [i] (from 0) of the loop raises with [r], or returns when
    [r] is [None], provided the calls before it returned. *)
Definition call_raises (i : nat) (evm : EVM) (caller_address : string)
           (contract_address : Address) (call_data : Py.bytes) : option string :=
  EVM_message_call_raises
    (engine_after_calls i evm caller_address contract_address call_data)
    caller_address contract_address call_data GAS_LIMIT.

(** The first [n] calls of the loop return. *)
Definition calls_return (n : nat) (evm : EVM) (caller_address : string)
           (contract_address : Address) (call_data : Py.bytes) : Prop :=
  forall i, (i < n)%nat ->
    call_raises i evm caller_address contract_address call_data = None.

(** [sys.stdout] is buffered and the source never flushes it. Whether the
    stream passes its pending lines on to the output after a [print] is
    decided by the stream: [flushes pending] for the lines held so far, the
    new one included (always, when the stream is line-buffered, as on a
    terminal; when the buffer is full, otherwise, as on a pipe or a file).
    [stdout_state] gives the lines written to the output and the lines
    still pending after the events of a trace; at exit the pending lines
    are written. *)
Fixpoint stdout_state (flushes : list Py.float -> bool) (tr : list Event)
         (written pending : list Py.float) : list Py.float * list Py.float :=
  match tr with
  | [] => (written, pending)
  | Print x :: tr' =>
      if flushes (pending ++ [x])
      then stdout_state flushes tr' (written ++ pending ++ [x]) []
      else stdout_state flushes tr' written (pending ++ [x])
  | _ :: tr' => stdout_state flushes tr' written pending
  end.

Definition stdout_at_exit (flushes : list Py.float -> bool) (tr : list Event)
  : list Py.float :=
  fst (stdout_state flushes tr [] []) ++ snd (stdout_state flushes tr [] []).

(** The lines already written to the output at the start of each engine
    call of a trace. *)
Fixpoint written_at_calls (flushes : list Py.float -> bool) (tr : list Event)
         (written pending : list Py.float) : list (list Py.float) :=
  match tr with
  | [] => []
  | Print x :: tr' =>
      if flushes (pending ++ [x])
      then written_at_calls flushes tr' (written ++ pending ++ [x]) []
      else written_at_calls flushes tr' written (pending ++ [x])
  | MessageCall _ _ _ _ :: tr' =>
      written :: written_at_calls flushes tr' written pending
  | _ :: tr' => written_at_calls flushes tr' written pending
  end.

Definition line_buffered : list Py.float -> bool := fun _ => true.

(** A block-buffered stream whose buffer holds [capacity] lines. *)
Definition block_buffered (capacity : nat) : list Py.float -> bool :=
  fun pending => (capacity <? List.length pending)%nat.

(** What one line of output is, given the elapsed nanoseconds [ns]: the
    quotient [ns / 1e6], a finite double of the sign of [ns]. *)
Definition line_of (ns : Z) (x : Py.float) : Prop :=
  Py.int_truediv_float ns Py.float_1e6 = inr x /\
  Py.float_is_finite x = true /\
  (0 <= ns -> Py.float_nonneg x = true) /\
  (0 < ns -> SFltb (S754_zero false) x = true) /\
  (ns < 0 -> SFltb x (S754_zero false) = true).

(** The text of the bytecode file named by the arguments, when there is
    one. *)
Definition bytecode_text (args : Namespace) : option string :=
  match contract_code_path args with
  | None => None
  | Some path => read_text os path
  end.

(** An event after the deployment: no further deployment, and every call
    is the given one. *)
Definition same_call (caller_address : string) (contract_address : Address)
           (call_data : Py.bytes) (e : Event) : Prop :=
  match e with
  | Deploy _ _ _ => False
  | MessageCall c t d g =>
      c = caller_address /\ t = contract_address /\ d = call_data /\ g = GAS_LIMIT
  | PerfCounter _ | Print _ => True
  end.

End WithEngine.
End Runner.

Import Runner.

(** ** Hexadecimal text, as the specification speaks of it

    These definitions do not come from the runner: they say what valid
    hexadecimal is, which bytes it denotes and how bytes are written back in
    hexadecimal ([bytes.hex()]), so that the decoder can be compared with
    them. *)

Module HexText.

Definition hexdigits : string := "0123456789abcdef".

Definition ascii_lower (c : ascii) : ascii :=
  let n := N_of_ascii c in
  if ((65 <=? n) && (n <=? 90))%N then ascii_of_N (n + 32) else c.

Fixpoint string_lower (s : string) : string :=
  match s with
  | EmptyString => EmptyString
  | String c r => String (ascii_lower c) (string_lower r)
  end.

(** Position of a character in a string, its length when absent. *)
Fixpoint index_of (c : ascii) (s : string) : Z :=
  match s with
  | EmptyString => 0
  | String d r => if Ascii.eqb c d then 0 else 1 + index_of c r
  end.

Definition hex_value (c : ascii) : Z := index_of (ascii_lower c) hexdigits.

Definition hex_digit (c : ascii) : bool := hex_value c <? 16.

(** ASCII whitespace: TAB, LF, VT, FF, CR and the space. *)
Definition ascii_whitespace (c : ascii) : bool :=
  existsb (N.eqb (N_of_ascii c)) [9; 10; 11; 12; 13; 32]%N.

Fixpoint all_hex_digits (s : string) : bool :=
  match s with
  | EmptyString => true
  | String c r => hex_digit c && all_hex_digits r
  end.

(** Valid hexadecimal: an even number of characters, all of them
    hexadecimal digits. *)
Definition valid_hex (s : string) : bool :=
  Nat.even (String.length s) && all_hex_digits s.

(** The bytes denoted by a string of hexadecimal digits, two per byte. *)
Fixpoint bytes_of_digits (s : string) : Py.bytes :=
  match s with
  | String c (String d r) => (16 * hex_value c + hex_value d) :: bytes_of_digits r
  | _ => []
  end.

(** [bytes.hex()]: two lower-case digits per byte. *)
Definition hex_char (v : Z) : ascii :=
  match String.get (Z.to_nat v) hexdigits with
  | Some c => c
  | None => "0"%char
  end.

Fixpoint hex_encode (bs : Py.bytes) : string :=
  match bs with
  | [] => EmptyString
  | b :: bs' =>
      String (hex_char (Z.land (Z.shiftr b 4) 15))
        (String (hex_char (Z.land b 15)) (hex_encode bs'))
  end.

Fixpoint remove_whitespace (s : string) : string :=
  match s with
  | EmptyString => EmptyString
  | String c r =>
      if ascii_whitespace c then remove_whitespace r
      else String c (remove_whitespace r)
  end.

(** The words of a text: its pieces between whitespace characters (a piece
    may be empty). *)
Fixpoint words (s : string) : list string :=
  match s with
  | EmptyString => [EmptyString]
  | String c r =>
      if ascii_whitespace c then EmptyString :: words r
      else
        match words r with
        | w :: ws => String c w :: ws
        | [] => [String c EmptyString]
        end
  end.

(** Hexadecimal in which whitespace separates whole bytes: every word is
    valid hexadecimal. *)
Definition spaced_hex (s : string) : bool := forallb valid_hex (words s).

End HexText.

(** ** A concrete engine and operating system, for running the model

    The engine keeps the success flags of the operations done so far, latest
    first; [deploy_ok] and [call_ok] fix what it reports for a deployment and
    for a call. The file system holds one bytecode file that ends in a
    newline; the clock advances by 1500 ns per reading until it saturates. *)

Module Mock.

Definition raises_when (raising ok : bool) : option string :=
  if raising && negb ok then Some "revert"%string else None.

Definition mock_raises_on_failure (raising ok : bool) (msg : string) :
  raises_when raising ok = Some msg -> ok = false :=
  match raising, ok with
  | true, true | false, true =>
      fun H => match H in _ = o return match o with Some _ => true = false
                                                   | None => True end
               with eq_refl => I end
  | _, false => fun _ => eq_refl
  end.

(** With [raising] the engine behaves as [pyrevm] does: an operation that
    fails raises. Without it a failing operation returns, and the failure
    shows in [result] only. *)
Definition mock_engine (deploy_ok call_ok raising : bool) : Engine := {|
  EVM := list bool;
  Address := Z;
  ExecutionResult := bool;
  EVM_new := [];
  EVM_deploy := fun evm _ _ _ => (deploy_ok :: evm, 4919);
  EVM_message_call := fun evm _ _ _ _ => (call_ok :: evm, []);
  EVM_result := fun evm => hd false evm;
  is_success := fun r => r;
  EVM_deploy_raises := fun _ _ _ _ => raises_when raising deploy_ok;
  EVM_message_call_raises := fun _ _ _ _ _ => raises_when raising call_ok;
  deploy_raises_on_failure :=
    fun _ _ _ _ msg => mock_raises_on_failure raising deploy_ok msg
|}.

Definition healthy : Engine := mock_engine true true true.
Definition reverting_calls : Engine := mock_engine true false true.
Definition failing_calls : Engine := mock_engine true false false.
Definition failing_deploy : Engine := mock_engine false true true.

(** The text of the bytecode file: twelve digits and a newline. *)
Definition contract_text : string := "600035600052
".

Definition contract_code : Py.bytes := [96; 0; 53; 96; 0; 82].

Definition mock_os : OS := {|
  read_text := fun path =>
    if String.eqb path "contract.hex" then Some contract_text
    else if String.eqb path "broken.hex" then Some "60g0"%string
    else None;
  perf_counter_ns_reading := fun k => Z.min (1500 * Z.of_nat k) (2 ^ 62)
|}.

(** A file system all of whose files hold a space and a newline. *)
Definition blank_text : string := " 
".

Definition blank_os : OS := {|
  read_text := fun _ => Some blank_text;
  perf_counter_ns_reading := fun k => Z.min (1500 * Z.of_nat k) (2 ^ 62)
|}.

(** A clock that goes back by 1000 ns at each reading. *)
Definition backward_os : OS := {|
  read_text := read_text mock_os;
  perf_counter_ns_reading := fun k => Z.max 0 (5000000 - 1000 * Z.of_nat k)
|}.

Definition mock_args (n : Z) : Namespace := {|
  contract_code_path := Some "contract.hex"%string;
  calldata := Some ""%string;
  num_runs := Some n
|}.

Definition broken_args : Namespace := {|
  contract_code_path := Some "broken.hex"%string;
  calldata := Some ""%string;
  num_runs := Some 3
|}.

Definition no_args : Namespace := {|
  contract_code_path := None;
  calldata := None;
  num_runs := None
|}.

End Mock.

(** ** Facts on binary64 rounding, for the quotient printed by the loop *)

Module FloatFacts.

Import Py.

Lemma digits2_pos_size (p : positive) : digits2_pos p = Pos.size p.
Proof. induction p; simpl; congruence. Qed.

Lemma pos_lt_pow2_digits (p : positive) : Zpos p < 2 ^ Zpos (digits2_pos p).
Proof.
  rewrite digits2_pos_size.
  pose proof (Pos.size_gt p) as H.
  apply Pos2Z.pos_lt_pos in H. now rewrite Pos2Z.inj_pow in H.
Qed.

Lemma pow2_digits_le (p : positive) : 2 ^ Zpos (digits2_pos p) <= 2 * Zpos p.
Proof.
  rewrite digits2_pos_size.
  pose proof (Pos.size_le p) as H.
  apply Pos2Z.pos_le_pos in H. now rewrite Pos2Z.inj_pow in H.
Qed.

Lemma Zdigits2_bound (m K : Z) :
  0 <= m < 2 ^ K -> 0 <= K -> 0 <= Zdigits2 m <= K.
Proof.
  intros [Hm HK] HK0. destruct m as [|p|p]; simpl; try lia.
  split; [lia|].
  pose proof (pow2_digits_le p) as H.
  assert (2 ^ Zpos (digits2_pos p) < 2 ^ (K + 1)) as Hlt.
  { replace (K + 1) with (Z.succ K) by lia. rewrite Z.pow_succ_r by lia. lia. }
  apply Z.pow_lt_mono_r_iff in Hlt; lia.
Qed.

Lemma shr_1_m (r : shr_record) :
  0 <= shr_m r -> 0 <= shr_m (shr_1 r) <= shr_m r.
Proof.
  destruct r as [m b c]; simpl. intros Hm.
  destruct m as [|[p|p|]|p]; simpl; lia.
Qed.

Lemma iter_shr_1_m (n : positive) : forall r : shr_record,
  0 <= shr_m r -> 0 <= shr_m (iter_pos shr_1 n r) <= shr_m r.
Proof.
  induction n as [n IH|n IH|]; intros r Hr; simpl.
  - pose proof (shr_1_m r Hr) as H1.
    pose proof (IH (shr_1 r) (proj1 H1)) as H2.
    pose proof (IH _ (proj1 H2)) as H3. lia.
  - pose proof (IH r Hr) as H2.
    pose proof (IH _ (proj1 H2)) as H3. lia.
  - now apply shr_1_m.
Qed.

Lemma shr_m_of_loc (m : Z) (l : location) : shr_m (shr_record_of_loc m l) = m.
Proof. destruct l as [|[| |]]; reflexivity. Qed.

Lemma shr_fexp_bound (m e : Z) (l : location) (K : Z) :
  0 <= m < 2 ^ K -> 0 <= K ->
  0 <= shr_m (fst (shr_fexp prec emax m e l)) <= m /\
  snd (shr_fexp prec emax m e l) <= Z.max e (-1074) + Z.max 0 (K - 53).
Proof.
  intros Hm HK.
  pose proof (Zdigits2_bound m K Hm HK) as Hd.
  unfold shr_fexp, shr, fexp, emin, prec, emax.
  destruct (Z.max (Zdigits2 m + e - 53) (3 - 1024 - 53) - e) as [|n|n] eqn:En;
    simpl fst; simpl snd; rewrite ?shr_m_of_loc.
  - lia.
  - pose proof (iter_shr_1_m n (shr_record_of_loc m l)) as H.
    rewrite shr_m_of_loc in H. split; [apply H; lia|]. lia.
  - lia.
Qed.

Lemma round_nearest_even_bound (m : Z) (l : location) :
  m <= round_nearest_even m l <= m + 1.
Proof.
  destruct l as [|[| |]]; simpl; try lia. destruct (Z.even m); lia.
Qed.

(** Rounding a non-negative mantissa below [2^K] at a moderate exponent
    gives a zero or a finite double of the requested sign. *)
Lemma binary_round_aux_finite (s : bool) (m e : Z) (l : location) (K : Z) :
  0 <= m < 2 ^ K -> 0 <= K -> Z.max e (-1074) + 2 * K <= 971 ->
  binary_round_aux prec emax s m e l = S754_zero s \/
  exists m' e',
    binary_round_aux prec emax s m e l = S754_finite s m' e' /\
    Zpos m' < 2 ^ (K + 1) /\ e' <= Z.max e (-1074) + 2 * K.
Proof.
  intros Hm HK He. unfold binary_round_aux.
  pose proof (shr_fexp_bound m e l K Hm HK) as [H1m H1e].
  destruct (shr_fexp prec emax m e l) as [r1 e1]. simpl fst in *; simpl snd in *.
  set (m1 := round_nearest_even (shr_m r1) (loc_of_shr_record r1)).
  pose proof (round_nearest_even_bound (shr_m r1) (loc_of_shr_record r1)) as Hr.
  fold m1 in Hr.
  assert (2 ^ (K + 1) = 2 * 2 ^ K) as Hp
    by (replace (K + 1) with (Z.succ K) by lia; now rewrite Z.pow_succ_r by lia).
  assert (0 <= m1 < 2 ^ (K + 1)) as Hm1 by lia.
  pose proof (shr_fexp_bound m1 e1 loc_Exact (K + 1) Hm1 ltac:(lia)) as [H2m H2e].
  destruct (shr_fexp prec emax m1 e1 loc_Exact) as [r2 e2].
  simpl fst in *; simpl snd in *.
  destruct (shr_m r2) as [|q|q] eqn:Eq; [now left| |lia].
  right. exists q, e2.
  assert (e2 <= Z.max e (-1074) + 2 * K) as He2 by lia.
  replace (e2 <=? emax - prec) with true
    by (symmetry; apply Z.leb_le; unfold emax, prec; lia).
  repeat split; lia.
Qed.

Lemma iter_xO_pow2 (d p : positive) :
  Zpos (Pos.iter xO p d) = Zpos p * 2 ^ Zpos d.
Proof.
  revert p. induction d as [|d IH] using Pos.peano_ind; intros p.
  - simpl. lia.
  - rewrite Pos.iter_succ, Pos2Z.inj_succ, Z.pow_succ_r by lia.
    rewrite Pos2Z.inj_xO, IH. lia.
Qed.

(** The conversion of an integer of magnitude below [2^64]. *)
Lemma binary_round_int64 (s : bool) (p : positive) :
  Zpos p < 2 ^ 64 ->
  binary_round prec emax s p 0 = S754_zero s \/
  exists m e,
    binary_round prec emax s p 0 = S754_finite s m e /\
    Zpos m < 2 ^ 65 /\ e <= 128.
Proof.
  intros Hp. unfold binary_round, shl_align.
  pose proof (Zdigits2_bound (Zpos p) 64 ltac:(lia) ltac:(lia)) as Hd.
  simpl Zdigits2 in Hd.
  pose proof (pos_lt_pow2_digits p) as Hlt.
  set (dg := Zpos (digits2_pos p)) in *.
  unfold fexp, emin, prec, emax.
  destruct (Z.max (dg + 0 - 53) (3 - 1024 - 53) - 0) as [|n|n] eqn:En.
  - destruct (binary_round_aux_finite s (Zpos p) 0 loc_Exact 64) as [H|(m & e & H & Hm & He)];
      [lia|lia|lia|now left|].
    right. exists m, e. repeat split; [exact H|exact Hm|lia].
  - destruct (binary_round_aux_finite s (Zpos p) 0 loc_Exact 64) as [H|(m & e & H & Hm & He)];
      [lia|lia|lia|now left|].
    right. exists m, e. repeat split; [exact H|exact Hm|lia].
  - assert (Zpos (Pos.iter xO p n) < 2 ^ 64) as Hsh.
    { rewrite iter_xO_pow2.
      assert (Zpos n = 53 - dg) as -> by lia.
      assert (2 ^ 53 = 2 ^ dg * 2 ^ (53 - dg)) as Hsplit.
      { rewrite <- Z.pow_add_r by lia. f_equal. lia. }
      assert (0 < 2 ^ (53 - dg)) by (apply Z.pow_pos_nonneg; lia).
      assert (Zpos p * 2 ^ (53 - dg) < 2 ^ dg * 2 ^ (53 - dg)) by nia.
      assert (2 ^ 53 < 2 ^ 64) by (apply Z.pow_lt_mono_r; lia).
      lia. }
    destruct (binary_round_aux_finite s (Zpos (Pos.iter xO p n))
                (Z.max (dg + 0 - 53) (3 - 1024 - 53)) loc_Exact 64)
      as [H|(m & e & H & Hm & He)]; [lia|lia|lia|now left|].
    right. exists m, e. repeat split; [exact H|exact Hm|lia].
Qed.

Lemma PyLong_AsDouble_int64 (z : Z) :
  - 2 ^ 64 < z < 2 ^ 64 ->
  exists x, PyLong_AsDouble z = inr x /\
    ((exists s, x = S754_zero s /\ (0 <= z -> s = false)) \/
     exists m e, x = S754_finite (z <? 0) m e /\ Zpos m < 2 ^ 65 /\ e <= 128).
Proof.
  intros Hz. unfold PyLong_AsDouble, binary_normalize.
  destruct z as [|p|p].
  - exists (S754_zero false). split; [reflexivity|]. left. exists false. split; [reflexivity|intros _; reflexivity].
  - destruct (binary_round_int64 false p ltac:(lia)) as [H|(m & e & H & Hm & He)];
      rewrite H.
    + exists (S754_zero false). split; [reflexivity|]. left. exists false. split; [reflexivity|intros _; reflexivity].
    + exists (S754_finite false m e). split; [reflexivity|]. right. exists m, e. repeat split; assumption.
  - destruct (binary_round_int64 true p ltac:(lia)) as [H|(m & e & H & Hm & He)];
      rewrite H.
    + exists (S754_zero true). split; [reflexivity|]. left. exists true. split; [reflexivity|lia].
    + exists (S754_finite true m e). split; [reflexivity|]. right. exists m, e. repeat split; assumption.
Qed.

Lemma Zdigits2_1e6 : Zdigits2 8589934592000000 = 53.
Proof. reflexivity. Qed.

(** Dividing a moderate double by [1e6] gives a zero or a finite double of
    the same sign. *)
Lemma SFdiv_1e6_finite (s : bool) (m : positive) (e : Z) :
  Zpos m < 2 ^ 65 -> e <= 128 ->
  SFdiv prec emax (S754_finite s m e) float_1e6 = S754_zero s \/
  exists m' e', SFdiv prec emax (S754_finite s m e) float_1e6 = S754_finite s m' e'.
Proof.
  intros Hm He. unfold float_1e6, SFdiv, SFdiv_core_binary.
  rewrite Zdigits2_1e6, xorb_false_r.
  pose proof (Zdigits2_bound (Zpos m) 65 ltac:(lia) ltac:(lia)) as Hd.
  set (d1 := Zdigits2 (Zpos m)) in *.
  assert (1 <= d1) as Hd1 by (unfold d1; simpl; lia).
  set (e' := Z.min (fexp prec emax (d1 + e - (53 + -33))) (e - -33)).
  assert (e - 72 <= e' <= e + 33) as He'
    by (unfold e', fexp, emin, prec, emax; lia).
  set (m' := match e - -33 - e' with
             | 0 => Zpos m
             | Zpos _ => Z.shiftl (Zpos m) (e - -33 - e')
             | Zneg _ => 0
             end).
  assert (0 <= m' < 2 ^ 170) as Hm'.
  { unfold m'. destruct (e - -33 - e') as [|sp|sp] eqn:Es.
    - assert (2 ^ 65 < 2 ^ 170) by (apply Z.pow_lt_mono_r; lia). lia.
    - rewrite Z.shiftl_mul_pow2 by lia.
      assert (0 < 2 ^ Zpos sp) by (apply Z.pow_pos_nonneg; lia).
      assert (2 ^ Zpos sp <= 2 ^ 105) by (apply Z.pow_le_mono_r; lia).
      assert (2 ^ 170 = 2 ^ 65 * 2 ^ 105) as -> by (rewrite <- Z.pow_add_r by lia; reflexivity).
      split; [lia|].
      apply Z.lt_le_trans with (2 ^ 65 * 2 ^ Zpos sp).
      + apply Z.mul_lt_mono_pos_r; lia.
      + apply Z.mul_le_mono_nonneg_l; lia.
    - split; [lia|]. apply Z.pow_pos_nonneg; lia. }
  pose proof (Z_div_mod m' 8589934592000000 ltac:(lia)) as Hdiv.
  destruct (Z.div_eucl m' 8589934592000000) as [q r].
  destruct Hdiv as [Hq Hr].
  assert (0 <= q < 2 ^ 170) as Hq' by lia.
  destruct (binary_round_aux_finite s q e'
              (new_location 8589934592000000 r) 170 Hq' ltac:(lia) ltac:(lia))
    as [H|(mz & ez & H & _)].
  - left. exact H.
  - right. exists mz, ez. exact H.
Qed.

(** The quotient printed by the loop, for an elapsed time read off a
    64-bit counter: it is a finite double, and it is not negative when the
    elapsed time is not. *)
Lemma elapsed_ms_finite (d : Z) :
  - 2 ^ 64 < d < 2 ^ 64 ->
  exists x, int_truediv_float d float_1e6 = inr x /\
            float_is_finite x = true /\
            (0 <= d -> float_nonneg x = true).
Proof.
  intros Hd. unfold int_truediv_float.
  destruct (PyLong_AsDouble_int64 d Hd) as (x & Hx & Hshape). rewrite Hx.
  change (float_is_zero float_1e6) with false. cbv iota.
  destruct Hshape as [(s & -> & Hs)|(m & e & -> & Hm & He)].
  - exists (S754_zero (xorb s false)). split; [reflexivity|].
    split; [reflexivity|]. intros _. reflexivity.
  - destruct (SFdiv_1e6_finite (d <? 0) m e Hm He) as [H|(m' & e' & H)];
      rewrite H; eexists; (split; [reflexivity|]); (split; [reflexivity|]);
      intros H0; (replace (d <? 0) with false by (symmetry; apply Z.ltb_ge; lia));
      reflexivity.
Qed.

Lemma shr_1_div2 (r : shr_record) :
  0 <= shr_m r -> shr_m (shr_1 r) = shr_m r / 2.
Proof.
  rewrite <- Z.div2_div.
  destruct r as [[|[p|p|]|p] b c]; simpl; intros H; (reflexivity || lia).
Qed.

Lemma iter_shr_1_div (n : positive) : forall r : shr_record,
  0 <= shr_m r -> shr_m (iter_pos shr_1 n r) = shr_m r / 2 ^ Zpos n.
Proof.
  assert (forall m k, 0 <= m -> 0 <= m / 2 ^ Zpos k) as Hquot
    by (intros m k Hm; apply Z.div_pos; [exact Hm|apply Z.pow_pos_nonneg; lia]).
  assert (forall k, 0 < 2 ^ Zpos k) as Hpow
    by (intros k; apply Z.pow_pos_nonneg; lia).
  induction n as [n IH|n IH|]; intros r Hr; simpl iter_pos.
  - assert (0 <= shr_m (shr_1 r)) as H1
      by (rewrite shr_1_div2 by exact Hr; apply Z.div_pos; lia).
    assert (0 <= shr_m (iter_pos shr_1 n (shr_1 r))) as H2
      by (rewrite IH by exact H1; now apply Hquot).
    rewrite IH, IH, shr_1_div2 by assumption.
    rewrite !Z.div_div by (pose proof (Hpow n); lia).
    f_equal. change (Zpos n~1) with (2 * Zpos n + 1).
    replace (2 * Zpos n + 1) with (1 + Zpos n + Zpos n) by lia.
    rewrite !Z.pow_add_r, Z.pow_1_r by lia. lia.
  - assert (0 <= shr_m (iter_pos shr_1 n r)) as H2
      by (rewrite IH by exact Hr; now apply Hquot).
    rewrite IH, IH by assumption.
    rewrite Z.div_div by (pose proof (Hpow n); lia).
    f_equal. change (Zpos n~0) with (2 * Zpos n).
    replace (2 * Zpos n) with (Zpos n + Zpos n) by lia.
    now rewrite Z.pow_add_r by lia.
  - rewrite shr_1_div2 by exact Hr. now rewrite Z.pow_1_r.
Qed.

(** At an exponent that is not tiny, shifting to the format keeps a
    positive mantissa positive and does not lower the exponent. *)
Lemma shr_fexp_positive (m e : Z) (l : location) :
  1 <= m -> -1000 <= e ->
  1 <= shr_m (fst (shr_fexp prec emax m e l))
  /\ e <= snd (shr_fexp prec emax m e l).
Proof.
  intros Hm He. destruct m as [|p|p]; try lia.
  pose proof (pow2_digits_le p) as Hlow.
  unfold shr_fexp, shr, fexp, emin, prec, emax. simpl Zdigits2.
  set (d := Zpos (digits2_pos p)) in *.
  destruct (Z.max (d + e - 53) (3 - 1024 - 53) - e) as [|n|n] eqn:En;
    simpl fst; simpl snd; rewrite ?shr_m_of_loc; try lia.
  split; [|lia].
  rewrite iter_shr_1_div by (rewrite shr_m_of_loc; lia).
  rewrite shr_m_of_loc.
  assert (Zpos n = d - 53) as -> by lia.
  assert (0 < 2 ^ (d - 53)) as Hpos by (apply Z.pow_pos_nonneg; lia).
  apply Z.div_le_lower_bound; [exact Hpos|].
  assert (2 ^ d = 2 ^ (d - 53) * 2 ^ 53) as Hsplit
    by (rewrite <- Z.pow_add_r by lia; f_equal; lia).
  assert (2 <= 2 ^ 53) by (change (2 ^ 53) with 9007199254740992; lia).
  nia.
Qed.

Lemma binary_round_aux_nonzero (s : bool) (m e : Z) (l : location) (K : Z) :
  1 <= m < 2 ^ K -> 0 <= K -> -1000 <= e -> Z.max e (-1074) + 2 * K <= 971 ->
  exists m' e',
    binary_round_aux prec emax s m e l = S754_finite s m' e' /\
    Zpos m' < 2 ^ (K + 1) /\ e <= e' <= Z.max e (-1074) + 2 * K.
Proof.
  intros Hm HK Hlow He.
  destruct (binary_round_aux_finite s m e l K ltac:(lia) HK He)
    as [Hz|(m' & e' & H & Hm' & He')];
    pose proof (shr_fexp_positive m e l ltac:(lia) Hlow) as [H1m H1e];
    revert Hz || revert H; unfold binary_round_aux;
    destruct (shr_fexp prec emax m e l) as [r1 e1]; simpl fst in *; simpl snd in *;
    pose proof (round_nearest_even_bound (shr_m r1) (loc_of_shr_record r1)) as Hr;
    set (m1 := round_nearest_even (shr_m r1) (loc_of_shr_record r1)) in *;
    pose proof (shr_fexp_positive m1 e1 loc_Exact ltac:(lia) ltac:(lia)) as [H2m H2e];
    destruct (shr_fexp prec emax m1 e1 loc_Exact) as [r2 e2];
    simpl fst in *; simpl snd in *;
    destruct (shr_m r2) as [|q|q]; try lia;
    destruct (e2 <=? emax - prec); intros H; try discriminate H.
  exists m', e'. injection H as -> ->. repeat split; try assumption; lia.
Qed.

Lemma binary_round_int64_nonzero (s : bool) (p : positive) :
  Zpos p < 2 ^ 64 ->
  exists m e,
    binary_round prec emax s p 0 = S754_finite s m e /\
    Zpos m < 2 ^ 65 /\ -52 <= e <= 128.
Proof.
  intros Hp. unfold binary_round, shl_align.
  pose proof (Zdigits2_bound (Zpos p) 64 ltac:(lia) ltac:(lia)) as Hd.
  simpl Zdigits2 in Hd.
  pose proof (pos_lt_pow2_digits p) as Hlt.
  set (dg := Zpos (digits2_pos p)) in *.
  unfold fexp, emin, prec, emax.
  destruct (Z.max (dg + 0 - 53) (3 - 1024 - 53) - 0) as [|n|n] eqn:En.
  - destruct (binary_round_aux_nonzero s (Zpos p) 0 loc_Exact 64)
      as (m & e & H & Hm & He); try lia.
    exists m, e. repeat split; [exact H|exact Hm|lia|lia].
  - destruct (binary_round_aux_nonzero s (Zpos p) 0 loc_Exact 64)
      as (m & e & H & Hm & He); try lia.
    exists m, e. repeat split; [exact H|exact Hm|lia|lia].
  - assert (Zpos (Pos.iter xO p n) < 2 ^ 64) as Hsh.
    { rewrite iter_xO_pow2.
      assert (Zpos n = 53 - dg) as -> by lia.
      assert (2 ^ 53 = 2 ^ dg * 2 ^ (53 - dg)) as Hsplit.
      { rewrite <- Z.pow_add_r by lia. f_equal. lia. }
      assert (0 < 2 ^ (53 - dg)) by (apply Z.pow_pos_nonneg; lia).
      assert (Zpos p * 2 ^ (53 - dg) < 2 ^ dg * 2 ^ (53 - dg)) by nia.
      assert (2 ^ 53 < 2 ^ 64) by (apply Z.pow_lt_mono_r; lia).
      lia. }
    destruct (binary_round_aux_nonzero s (Zpos (Pos.iter xO p n))
                (Z.max (dg + 0 - 53) (3 - 1024 - 53)) loc_Exact 64)
      as (m & e & H & Hm & He); try lia.
    exists m, e. repeat split; [exact H|exact Hm|lia|lia].
Qed.

(** Dividing a non-zero moderate double by [1e6] gives a non-zero finite
    double of the same sign. *)
Lemma SFdiv_1e6_nonzero (s : bool) (m : positive) (e : Z) :
  Zpos m < 2 ^ 65 -> -52 <= e <= 128 ->
  exists m' e', SFdiv prec emax (S754_finite s m e) float_1e6 = S754_finite s m' e'.
Proof.
  intros Hm He. unfold float_1e6, SFdiv, SFdiv_core_binary.
  rewrite Zdigits2_1e6, xorb_false_r.
  pose proof (Zdigits2_bound (Zpos m) 65 ltac:(lia) ltac:(lia)) as Hd.
  pose proof (pow2_digits_le m) as Hlow.
  simpl Zdigits2 in *.
  set (d1 := Zpos (digits2_pos m)) in *.
  assert (fexp prec emax (d1 + e - (53 + -33)) = d1 + e - 73) as ->
    by (unfold fexp, emin, prec, emax; lia).
  assert (Z.min (d1 + e - 73) (e - -33) = d1 + e - 73) as -> by lia.
  assert (e - -33 - (d1 + e - 73) = 106 - d1) as -> by lia.
  destruct (106 - d1) as [|sp|sp] eqn:Es; try lia.
  rewrite Z.shiftl_mul_pow2 by lia.
  assert (2 ^ 106 = 2 ^ d1 * 2 ^ Zpos sp) as Hsplit
    by (rewrite <- Z.pow_add_r by lia; f_equal; lia).
  assert (0 < 2 ^ Zpos sp) as Hpos by (apply Z.pow_pos_nonneg; lia).
  set (m' := Zpos m * 2 ^ Zpos sp) in *.
  assert (2 ^ 105 <= m' < 2 ^ 106) as Hm'.
  { assert (2 ^ 106 = 2 * 2 ^ 105) as H106 by reflexivity.
    pose proof (pos_lt_pow2_digits m) as Hup. fold d1 in Hup.
    unfold m'. split; nia. }
  pose proof (Z_div_mod m' 8589934592000000 ltac:(lia)) as Hdiv.
  destruct (Z.div_eucl m' 8589934592000000) as [q r].
  destruct Hdiv as [Hq Hr].
  assert (1 <= q < 2 ^ 106) as Hq'.
  { change (2 ^ 105) with 40564819207303340847894502572032 in Hm'.
    change (2 ^ 106) with 81129638414606681695789005144064 in *. lia. }
  destruct (binary_round_aux_nonzero s q (d1 + e - 73)
              (new_location 8589934592000000 r) 106 Hq' ltac:(lia) ltac:(lia)
              ltac:(lia))
    as (mz & ez & H & _).
  exists mz, ez. exact H.
Qed.

(** The sign of the quotient printed by the loop is the sign of the elapsed
    time. *)
Lemma elapsed_ms_sign (d : Z) :
  - 2 ^ 64 < d < 2 ^ 64 ->
  exists x, int_truediv_float d float_1e6 = inr x /\
            float_is_finite x = true /\
            (0 <= d -> float_nonneg x = true) /\
            (0 < d -> SFltb (S754_zero false) x = true) /\
            (d < 0 -> SFltb x (S754_zero false) = true).
Proof.
  intros Hd. unfold int_truediv_float, PyLong_AsDouble, binary_normalize.
  change (float_is_zero float_1e6) with false.
  destruct d as [|p|p].
  - exists (S754_zero false). repeat split; intros; (reflexivity || lia).
  - destruct (binary_round_int64_nonzero false p ltac:(lia)) as (m & e & H & Hm & He).
    rewrite H. cbv iota.
    destruct (SFdiv_1e6_nonzero false m e Hm He) as (m' & e' & H').
    rewrite H'. eexists. repeat split; intros; (reflexivity || lia).
  - destruct (binary_round_int64_nonzero true p ltac:(lia)) as (m & e & H & Hm & He).
    rewrite H. cbv iota.
    destruct (SFdiv_1e6_nonzero true m e Hm He) as (m' & e' & H').
    rewrite H'. eexists. repeat split; intros; (reflexivity || lia).
Qed.

End FloatFacts.

(** ** The decoder against hexadecimal text *)

Module HexFacts.

Import Py HexText.

Ltac each_character c :=
  destruct c as [[] [] [] [] [] [] [] []]; vm_compute;
  try reflexivity; try discriminate; try (intros; reflexivity);
  try (intros; discriminate); try (split; [discriminate | reflexivity]).

Lemma Py_ISSPACE_whitespace (c : ascii) : Py_ISSPACE c = ascii_whitespace c.
Proof. each_character c. Qed.

Lemma not_digit_value (c : ascii) :
  (16 <=? _PyLong_DigitValue c) = negb (hex_digit c).
Proof. each_character c. Qed.

Lemma digit_value (c : ascii) :
  hex_digit c = true -> _PyLong_DigitValue c = hex_value c.
Proof. each_character c. Qed.

Lemma whitespace_not_digit (c : ascii) :
  ascii_whitespace c = true -> hex_digit c = false.
Proof. each_character c. Qed.

Lemma hex_char_value (c : ascii) :
  hex_digit c = true -> hex_char (hex_value c) = ascii_lower c.
Proof. each_character c. Qed.

Lemma hex_value_range (c : ascii) :
  hex_digit c = true -> 0 <= hex_value c < 16.
Proof. each_character c. Qed.

Lemma words_cons (s : string) : exists w ws, words s = w :: ws.
Proof.
  destruct s as [|c r]; simpl; [now eexists; eexists|].
  destruct (ascii_whitespace c); [now eexists; eexists|].
  destruct (words r); now eexists; eexists.
Qed.

Lemma spaced_hex_space (c : ascii) (r : string) :
  ascii_whitespace c = true -> spaced_hex (String c r) = spaced_hex r.
Proof. intros Hc. unfold spaced_hex. simpl. now rewrite Hc. Qed.

Lemma spaced_hex_not_digit (c : ascii) (r : string) :
  ascii_whitespace c = false -> hex_digit c = false ->
  spaced_hex (String c r) = false.
Proof.
  intros Hc Hd. unfold spaced_hex. simpl. rewrite Hc.
  destruct (words_cons r) as (w & ws & ->). simpl.
  unfold valid_hex. simpl all_hex_digits. rewrite Hd.
  now rewrite andb_false_r.
Qed.

Lemma spaced_hex_lone_digit (c d : ascii) (r : string) :
  ascii_whitespace c = false -> ascii_whitespace d = true ->
  spaced_hex (String c (String d r)) = false.
Proof. intros Hc Hd. unfold spaced_hex. simpl. now rewrite Hc, Hd. Qed.

Lemma spaced_hex_last_digit (c : ascii) :
  ascii_whitespace c = false -> spaced_hex (String c EmptyString) = false.
Proof. intros Hc. unfold spaced_hex. simpl. now rewrite Hc. Qed.

Lemma spaced_hex_pair (c d : ascii) (r : string) :
  hex_digit c = true -> hex_digit d = true ->
  spaced_hex (String c (String d r)) = spaced_hex r.
Proof.
  intros Hc Hd. unfold spaced_hex. simpl.
  destruct (ascii_whitespace c) eqn:Wc;
    [apply whitespace_not_digit in Wc; congruence|].
  destruct (ascii_whitespace d) eqn:Wd;
    [apply whitespace_not_digit in Wd; congruence|].
  destruct (words_cons r) as (w & ws & ->). simpl.
  unfold valid_hex. simpl. now rewrite Hc, Hd.
Qed.

Lemma shiftl_4 (top bot : Z) : Z.shiftl top 4 + bot = 16 * top + bot.
Proof. rewrite Z.shiftl_mul_pow2 by lia. change (2 ^ 4) with 16. lia. Qed.

(** The decoder accepts exactly the texts in which whitespace separates
    whole bytes, and returns the bytes that their digits denote. *)
Lemma fromhex_spaced_hex_upto (n : nat) : forall s : string,
  (String.length s <= n)%nat ->
  fromhex s = if spaced_hex s
              then inr (bytes_of_digits (remove_whitespace s))
              else inl ValueError.
Proof.
  induction n as [|n IH]; intros s Hlen.
  - destruct s; [reflexivity|simpl in Hlen; lia].
  - destruct s as [|c r]; [reflexivity|]. simpl in Hlen.
    cbn [fromhex remove_whitespace]. rewrite Py_ISSPACE_whitespace.
    destruct (ascii_whitespace c) eqn:Wc.
    + rewrite spaced_hex_space by assumption. apply IH. lia.
    + rewrite not_digit_value.
      destruct (hex_digit c) eqn:Dc; cbn [negb];
        [|now rewrite spaced_hex_not_digit].
      destruct r as [|d r']; [now rewrite spaced_hex_last_digit|].
      simpl in Hlen. rewrite not_digit_value.
      destruct (hex_digit d) eqn:Dd; cbn [negb].
      * rewrite spaced_hex_pair by assumption.
        rewrite (IH r') by lia.
        cbn [remove_whitespace].
        destruct (ascii_whitespace d) eqn:Wd;
          [apply whitespace_not_digit in Wd; congruence|].
        destruct (spaced_hex r'); [|reflexivity].
        cbn [bytes_of_digits].
        now rewrite shiftl_4, !digit_value by assumption.
      * destruct (ascii_whitespace d) eqn:Wd.
        -- now rewrite spaced_hex_lone_digit.
        -- unfold spaced_hex. simpl. rewrite Wc, Wd.
           destruct (words_cons r') as (w & ws & ->). simpl.
           unfold valid_hex. simpl. rewrite Dd.
           now rewrite !andb_false_r.
Qed.

Lemma fromhex_spaced_hex (s : string) :
  fromhex s = if spaced_hex s
              then inr (bytes_of_digits (remove_whitespace s))
              else inl ValueError.
Proof. now apply (fromhex_spaced_hex_upto (String.length s)). Qed.

Lemma all_hex_digits_words (s : string) :
  all_hex_digits s = true -> words s = [s] /\ remove_whitespace s = s.
Proof.
  induction s as [|c r IH]; simpl; [now split|].
  intros H. apply andb_prop in H as [Hc Hr].
  destruct (ascii_whitespace c) eqn:Wc;
    [apply whitespace_not_digit in Wc; congruence|].
  destruct (IH Hr) as [-> ->]. now split.
Qed.

Lemma nibbles (a b : Z) :
  0 <= a < 16 -> 0 <= b < 16 ->
  Z.land (Z.shiftr (16 * a + b) 4) 15 = a /\ Z.land (16 * a + b) 15 = b.
Proof.
  intros Ha Hb. change 15 with (Z.ones 4).
  rewrite !Z.land_ones, Z.shiftr_div_pow2 by lia. change (2 ^ 4) with 16.
  assert ((16 * a + b) / 16 = a) as Hq by (symmetry; apply Z.div_unique with b; lia).
  assert ((16 * a + b) mod 16 = b) as Hr by (symmetry; apply Z.mod_unique with a; lia).
  rewrite Hq, Hr. split; [apply Z.mod_small; lia|reflexivity].
Qed.

Lemma hex_encode_digits_upto (n : nat) : forall s : string,
  (String.length s <= n)%nat -> valid_hex s = true ->
  hex_encode (bytes_of_digits s) = string_lower s.
Proof.
  induction n as [|n IH]; intros s Hlen Hv.
  - destruct s; [reflexivity|simpl in Hlen; lia].
  - destruct s as [|c [|d r]]; [reflexivity|discriminate Hv|].
    simpl in Hlen. unfold valid_hex in Hv. simpl in Hv.
    apply andb_prop in Hv as [He Hv].
    apply andb_prop in Hv as [Dc Hv]. apply andb_prop in Hv as [Dd Hr].
    cbn [bytes_of_digits hex_encode string_lower].
    destruct (nibbles (hex_value c) (hex_value d)) as [-> ->];
      try now apply hex_value_range.
    rewrite !hex_char_value by assumption.
    rewrite (IH r); [reflexivity|lia|].
    unfold valid_hex. now rewrite He, Hr.
Qed.

End HexFacts.

(** ** The benchmarking protocol *)

Import Py HexText.

Ltac run_step :=
  repeat progress
    (unfold bind, perf_counter_ns, bench, message_call, deploy, print, ret, raise, log;
     cbn [clock_reads trace fst snd]).

Lemma int_truediv_error (a : Z) (e : BuiltinError) :
  int_truediv_float a float_1e6 = inl e -> e = OverflowError.
Proof.
  unfold int_truediv_float, PyLong_AsDouble.
  destruct (binary_normalize prec emax a 0 false); cbn; congruence.
Qed.

Lemma range_len_to_nat (N : Z) : (if N <=? 0 then O else Z.to_nat N) = Z.to_nat N.
Proof. destruct N; reflexivity. Qed.

Section Protocol.

Context {engine : Engine}.
Variable os : OS.

(** A deployment that the engine reports successful has returned. *)
Lemma deploy_returns (evm : EVM) (deployer : string) (code : bytes) (gas : Z) :
  is_success (EVM_result (fst (EVM_deploy evm deployer code gas))) = true ->
  EVM_deploy_raises evm deployer code gas = None.
Proof.
  intros Hok. destruct (EVM_deploy_raises evm deployer code gas) as [msg|] eqn:H;
    [|reflexivity].
  apply deploy_raises_on_failure in H. congruence.
Qed.

Lemma calls_return_S (n : nat) (evm : EVM) (caller : string) (addr : Address)
      (data : bytes) :
  calls_return (S n) evm caller addr data ->
  EVM_message_call_raises evm caller addr data GAS_LIMIT = None
  /\ calls_return n (fst (EVM_message_call evm caller addr data GAS_LIMIT))
       caller addr data.
Proof.
  intros H. split.
  - apply (H O). lia.
  - intros i Hi. apply (H (S i)). lia.
Qed.

Lemma clock_difference (k : nat) :
  int64_clock os ->
  - 2 ^ 64 < perf_counter_ns_reading os (S k) - perf_counter_ns_reading os k < 2 ^ 64.
Proof.
  intros Hclk. pose proof (Hclk k). pose proof (Hclk (S k)).
  change (2 ^ 64) with (2 * 2 ^ 63). lia.
Qed.

(** One iteration whose call returns, with a 64-bit clock. *)
Lemma timed_loop_step (caller : string) (addr : Address) (data : bytes) (n : nat)
      (evm : EVM) (k : nat) (tr : list Event) :
  int64_clock os ->
  EVM_message_call_raises evm caller addr data GAS_LIMIT = None ->
  exists x : float,
    line_of (perf_counter_ns_reading os (S k) - perf_counter_ns_reading os k) x
    /\ timed_loop os (S n) evm caller addr data {| clock_reads := k; trace := tr |}
       = timed_loop os n (fst (EVM_message_call evm caller addr data GAS_LIMIT))
           caller addr data
           {| clock_reads := S (S k);
              trace := tr ++ iteration_events os caller addr data k x |}.
Proof.
  intros Hclk Hret.
  destruct (FloatFacts.elapsed_ms_sign _ (clock_difference k Hclk))
    as (x & Hx & Hline).
  exists x. split; [split; assumption|].
  cbn [timed_loop]. run_step. rewrite Hret. run_step. rewrite Hx.
  cbn [builtin]. run_step.
  unfold iteration_events. now rewrite <- !app_assoc.
Qed.

(** With a 64-bit clock and calls that return, the loop runs to its end:
    [n] iterations, each one reading the clock, calling the engine, reading
    the clock and printing. *)
Lemma timed_loop_runs (caller : string) (addr : Address) (data : bytes) (n : nat) :
  int64_clock os ->
  forall (evm : EVM) (k : nat) (tr : list Event),
    calls_return n evm caller addr data ->
    exists lines : list float,
      timed_loop os n evm caller addr data {| clock_reads := k; trace := tr |}
      = (inr (engine_after_calls n evm caller addr data),
         {| clock_reads := k + 2 * n;
            trace := tr ++ loop_events os caller addr data k lines |})
      /\ Forall2 line_of (elapsed_ns os k n) lines.
Proof.
  intros Hclk. induction n as [|n IH]; intros evm k tr Hret.
  - exists []. split; [|constructor].
    cbn [timed_loop loop_events engine_after_calls]. unfold ret.
    now rewrite app_nil_r, Nat.add_0_r.
  - apply calls_return_S in Hret as [H0 Hret].
    destruct (timed_loop_step caller addr data n evm k tr Hclk H0)
      as (x & Hx & Hstep).
    destruct (IH _ (S (S k)) (tr ++ iteration_events os caller addr data k x) Hret)
      as (lines & Hrun & Hlines).
    exists (x :: lines). split.
    + rewrite Hstep, Hrun. cbn [engine_after_calls loop_events].
      f_equal. f_equal; [lia|]. now rewrite <- app_assoc.
    + cbn [elapsed_ns]. now constructor.
Qed.

(** When call number [i] is the first that raises, the loop stops there:
    [i] full iterations, then a clock reading and the call. *)
Lemma timed_loop_aborts (caller : string) (addr : Address) (data : bytes) (n : nat) :
  int64_clock os ->
  forall (i : nat) (msg : string) (evm : EVM) (k : nat) (tr : list Event),
    (i < n)%nat ->
    calls_return i evm caller addr data ->
    call_raises i evm caller addr data = Some msg ->
    exists lines : list float,
      timed_loop os n evm caller addr data {| clock_reads := k; trace := tr |}
      = (inl (RuntimeError msg),
         {| clock_reads := S (k + 2 * i);
            trace := tr ++ loop_events os caller addr data k lines
                        ++ [PerfCounter (perf_counter_ns_reading os (k + 2 * i));
                            MessageCall caller addr data GAS_LIMIT] |})
      /\ Forall2 line_of (elapsed_ns os k i) lines.
Proof.
  intros Hclk. induction n as [|n IH]; intros i msg evm k tr Hi Hret Hraise; [lia|].
  destruct i as [|i].
  - exists []. split; [|constructor].
    unfold call_raises in Hraise. cbn [engine_after_calls] in Hraise.
    cbn [timed_loop loop_events app]. run_step. rewrite Hraise.
    rewrite Nat.add_0_r. now rewrite <- app_assoc.
  - apply calls_return_S in Hret as [H0 Hret].
    destruct (timed_loop_step caller addr data n evm k tr Hclk H0)
      as (x & Hx & Hstep).
    destruct (IH i msg _ (S (S k)) (tr ++ iteration_events os caller addr data k x)
                ltac:(lia) Hret Hraise)
      as (lines & Hrun & Hlines).
    exists (x :: lines). split.
    + rewrite Hstep, Hrun. cbn [loop_events].
      replace (S (S k) + 2 * i)%nat with (k + 2 * S i)%nat by lia.
      now rewrite <- !app_assoc.
    + cbn [elapsed_ns]. now constructor.
Qed.

End Protocol.

Section Driver.

Context {engine : Engine}.
Variable os : OS.

(** The outcomes of [_benchmark]. *)
Lemma benchmark_unfold (evm : EVM) (caller : string) (code data : bytes)
      (num_runs : option Z) (w : World) :
  _benchmark os evm caller code data num_runs w =
  let d := EVM_deploy evm caller code GAS_LIMIT in
  let w1 := {| clock_reads := clock_reads w;
               trace := trace w ++ [Deploy caller code GAS_LIMIT] |} in
  match EVM_deploy_raises evm caller code GAS_LIMIT with
  | Some msg => (inl (RuntimeError msg), w1)
  | None =>
      if is_success (EVM_result (fst d)) then
        match num_runs with
        | None => (inl (Builtin TypeError), w1)
        | Some N =>
            match timed_loop os (Z.to_nat N) (fst d) caller (snd d) data w1 with
            | (inl e, w2) => (inl e, w2)
            | (inr _, w2) => (inr tt, w2)
            end
        end
      else (inl (AssertionError_result (EVM_result (fst d))), w1)
  end.
Proof.
  unfold _benchmark. run_step. cbv zeta.
  destruct (EVM_deploy_raises evm caller code GAS_LIMIT) as [msg|]; [reflexivity|].
  run_step.
  destruct (is_success (EVM_result (fst (EVM_deploy evm caller code GAS_LIMIT))));
    [|reflexivity].
  destruct num_runs as [N|]; [|reflexivity].
  cbn [range_len builtin]. run_step. rewrite range_len_to_nat.
  now destruct (timed_loop os (Z.to_nat N) _ caller _ data _) as [[e|r] w2].
Qed.

(** Whatever happens in the loop, it adds no deployment, and each of its
    engine calls is the same call. *)
Lemma timed_loop_same_call (caller : string) (addr : Address) (data : bytes) (n : nat) :
  forall (evm : EVM) (w : World),
  exists tr' : list Event,
    trace (snd (timed_loop os n evm caller addr data w)) = trace w ++ tr'
    /\ Forall (same_call caller addr data) tr'.
Proof.
  induction n as [|n IH]; intros evm w.
  - exists []. split; [now rewrite app_nil_r|constructor].
  - cbn [timed_loop]. run_step.
    destruct (EVM_message_call_raises evm caller addr data GAS_LIMIT) as [msg|];
      run_step.
    + eexists. split; [rewrite <- !app_assoc; reflexivity|].
      repeat constructor.
    + destruct (int_truediv_float _ float_1e6) as [e|x]; cbn [builtin]; run_step.
      * eexists. split; [rewrite <- !app_assoc; reflexivity|].
        repeat constructor.
      * match goal with
        | |- context [timed_loop os n ?evm' caller addr data ?w'] =>
            destruct (IH evm' w') as (tr' & Htr & Hall)
        end.
        rewrite Htr. cbn [trace].
        eexists. split; [rewrite <- !app_assoc; reflexivity|].
        repeat (constructor; [cbn; auto|]). exact Hall.
Qed.

Lemma printed_app (tr1 tr2 : list Event) :
  printed (tr1 ++ tr2) = printed tr1 ++ printed tr2.
Proof. unfold printed. now rewrite flat_map_app. Qed.

Lemma printed_loop_events (caller : string) (addr : Address) (data : bytes)
      (lines : list float) :
  forall k, printed (loop_events os caller addr data k lines) = lines.
Proof.
  induction lines as [|x lines IH]; intros k; [reflexivity|].
  cbn [loop_events]. rewrite printed_app, IH. reflexivity.
Qed.



Lemma elapsed_ns_length (n : nat) : forall k, List.length (elapsed_ns os k n) = n.
Proof. induction n as [|n IH]; intros k; simpl; [reflexivity|now rewrite IH]. Qed.

Lemma elapsed_ns_nonneg (n : nat) :
  monotonic_clock os -> forall k, Forall (fun ns => 0 <= ns) (elapsed_ns os k n).
Proof.
  intros Hmono. induction n as [|n IH]; intros k; simpl; constructor.
  - pose proof (Hmono k). lia.
  - apply IH.
Qed.

(** Whatever the stream, at exit the output holds the printed lines, in the
    order in which they were printed. *)
Lemma stdout_state_all (flushes : list float -> bool) (tr : list Event) :
  forall written pending,
    fst (stdout_state flushes tr written pending)
    ++ snd (stdout_state flushes tr written pending)
    = written ++ pending ++ printed tr.
Proof.
  induction tr as [|e tr IH]; intros written pending.
  - cbn. now rewrite app_nil_r.
  - destruct e; cbn [stdout_state]; try (rewrite IH; reflexivity).
    change (printed (Print x :: tr)) with (x :: printed tr).
    destruct (flushes (pending ++ [x])); rewrite IH; cbn [app];
      now rewrite <- !app_assoc.
Qed.

Lemma stdout_at_exit_printed (flushes : list float -> bool) (tr : list Event) :
  stdout_at_exit flushes tr = printed tr.
Proof. unfold stdout_at_exit. now rewrite stdout_state_all. Qed.

(** On a line-buffered stream, at the start of call [i] of the loop the
    lines of the calls before it have been written. *)
Lemma written_at_calls_line_buffered (caller : string) (addr : Address)
      (data : bytes) (lines : list float) :
  forall (k : nat) (written : list float),
    written_at_calls line_buffered (loop_events os caller addr data k lines)
                     written []
    = map (fun i => written ++ firstn i lines) (seq 0 (List.length lines)).
Proof.
  induction lines as [|x lines IH]; intros k written; [reflexivity|].
  cbn [loop_events iteration_events app written_at_calls line_buffered List.length].
  rewrite IH. cbn [seq map firstn]. rewrite app_nil_r. f_equal.
  rewrite <- seq_shift, map_map. apply map_ext. intros i.
  cbn [firstn]. now rewrite <- app_assoc.
Qed.

(** [_benchmark] after a deployment that the engine reports successful,
    when the calls return. *)
Lemma benchmark_runs (evm : EVM) (caller : string) (code data : bytes)
      (N : Z) (k : nat) (tr : list Event) :
  int64_clock os ->
  is_success (EVM_result (fst (EVM_deploy evm caller code GAS_LIMIT))) = true ->
  calls_return (Z.to_nat N) (fst (EVM_deploy evm caller code GAS_LIMIT)) caller
    (snd (EVM_deploy evm caller code GAS_LIMIT)) data ->
  exists lines : list float,
    _benchmark os evm caller code data (Some N)
               {| clock_reads := k; trace := tr |}
    = (inr tt, {| clock_reads := k + 2 * Z.to_nat N;
                  trace := tr ++ Deploy caller code GAS_LIMIT
                              :: loop_events os caller
                                   (snd (EVM_deploy evm caller code GAS_LIMIT))
                                   data k lines |})
    /\ Forall2 line_of (elapsed_ns os k (Z.to_nat N)) lines.
Proof.
  intros Hclk Hok Hret. rewrite benchmark_unfold. cbv zeta.
  rewrite (deploy_returns _ _ _ _ Hok), Hok. cbn [clock_reads trace].
  destruct (timed_loop_runs os caller _ data (Z.to_nat N) Hclk _ k
              (tr ++ [Deploy caller code GAS_LIMIT]) Hret)
    as (lines & Hrun & Hlines).
  exists lines. split; [|exact Hlines].
  rewrite Hrun. now rewrite <- app_assoc.
Qed.

(** [_benchmark] when call number [i] is the first that raises. *)
Lemma benchmark_aborts (evm : EVM) (caller : string) (code data : bytes)
      (N : Z) (k : nat) (tr : list Event) (i : nat) (msg : string) :
  int64_clock os ->
  is_success (EVM_result (fst (EVM_deploy evm caller code GAS_LIMIT))) = true ->
  (i < Z.to_nat N)%nat ->
  calls_return i (fst (EVM_deploy evm caller code GAS_LIMIT)) caller
    (snd (EVM_deploy evm caller code GAS_LIMIT)) data ->
  call_raises i (fst (EVM_deploy evm caller code GAS_LIMIT)) caller
    (snd (EVM_deploy evm caller code GAS_LIMIT)) data = Some msg ->
  exists lines : list float,
    _benchmark os evm caller code data (Some N)
               {| clock_reads := k; trace := tr |}
    = (inl (RuntimeError msg),
       {| clock_reads := S (k + 2 * i);
          trace := tr ++ Deploy caller code GAS_LIMIT
                      :: loop_events os caller
                           (snd (EVM_deploy evm caller code GAS_LIMIT)) data k lines
                      ++ [PerfCounter (perf_counter_ns_reading os (k + 2 * i));
                          MessageCall caller
                            (snd (EVM_deploy evm caller code GAS_LIMIT)) data
                            GAS_LIMIT] |})
    /\ List.length lines = i.
Proof.
  intros Hclk Hok Hi Hret Hraise. rewrite benchmark_unfold. cbv zeta.
  rewrite (deploy_returns _ _ _ _ Hok), Hok. cbn [clock_reads trace].
  destruct (timed_loop_aborts os caller _ data (Z.to_nat N) Hclk i msg _ k
              (tr ++ [Deploy caller code GAS_LIMIT]) Hi Hret Hraise)
    as (lines & Hrun & Hlines).
  exists lines. split.
  - rewrite Hrun. now rewrite <- app_assoc.
  - apply Forall2_length in Hlines. now rewrite elapsed_ns_length in Hlines.
Qed.

End Driver.

Lemma lines_of_nonneg (l : list Z) (lines : list float) :
  Forall2 line_of l lines ->
  Forall (fun ns => 0 <= ns) l ->
  Forall2 (fun ns x => int_truediv_float ns float_1e6 = inr x) l lines
  /\ Forall (fun x => float_is_finite x = true /\ float_nonneg x = true) lines.
Proof.
  induction 1 as [|ns x l lines (Hx & Hfin & Hnn & _) _ IH]; intros Hpos.
  - split; constructor.
  - inversion Hpos as [|? ? Hns Hrest]; subst.
    destruct (IH Hrest) as [IH1 IH2].
    split; constructor; auto.
Qed.

(** ** Properties of the Benchmark Driver ([_benchmark]) *)


(** C2. When the deployment fails, so that the engine's result is not a
    success, the run ends right after the deployment call with an exception
    that carries what the engine reports: the [RuntimeError] raised by
    [deploy] with the engine's message, or, if [deploy] returns, the
    [AssertionError] of the Driver with the engine's result. No invocation
    is made and nothing is printed. *)
Theorem failed_deployment_is_fatal :
  forall (engine : Engine) (os : OS) (evm : EVM) (caller : string)
         (code data : bytes) (num_runs : option Z) (w : World),
    is_success (EVM_result (fst (EVM_deploy evm caller code GAS_LIMIT))) = false ->
    _benchmark os evm caller code data num_runs w
    = (inl match EVM_deploy_raises evm caller code GAS_LIMIT with
           | Some msg => RuntimeError msg
           | None => AssertionError_result
                       (EVM_result (fst (EVM_deploy evm caller code GAS_LIMIT)))
           end,
       {| clock_reads := clock_reads w;
          trace := trace w ++ [Deploy caller code GAS_LIMIT] |})
    /\ invocations (trace (snd (_benchmark os evm caller code data num_runs w)))
       = invocations (trace w)
    /\ printed (trace (snd (_benchmark os evm caller code data num_runs w)))
       = printed (trace w).
Proof.
  intros engine os evm caller code data num_runs w Hfail.
  assert (_benchmark os evm caller code data num_runs w
          = (inl match EVM_deploy_raises evm caller code GAS_LIMIT with
                 | Some msg => RuntimeError msg
                 | None => AssertionError_result
                             (EVM_result (fst (EVM_deploy evm caller code GAS_LIMIT)))
                 end,
             {| clock_reads := clock_reads w;
                trace := trace w ++ [Deploy caller code GAS_LIMIT] |})) as Hrun.
  { rewrite benchmark_unfold. cbv zeta. rewrite Hfail.
    now destruct (EVM_deploy_raises evm caller code GAS_LIMIT). }
  rewrite Hrun. cbn [snd trace]. split; [reflexivity|]. split.
  - unfold invocations. rewrite filter_app. cbn. apply app_nil_r.
  - rewrite printed_app. cbn. apply app_nil_r.
Qed.

(** C3, as amended. For [N >= 1], after a successful deployment, when the
    calls return and the clock never goes back, the Driver prints exactly
    [N] lines; the events of the run are the deployment followed, for each
    invocation in turn, by a clock reading, the call, a clock reading and
    the [print] of the line of that call, so that each line is printed
    before the next call starts; line [i] is the elapsed nanoseconds of
    invocation [i] divided by [1e6], a finite double that is not negative.
    The source never flushes: on a line-buffered stream the lines of the
    calls made so far have been written when a call starts, and on any
    stream the output holds the [N] lines, in invocation order, at exit. *)
Theorem lines_in_invocation_order :
  forall (engine : Engine) (os : OS) (evm : EVM) (caller : string)
         (code data : bytes) (N : Z) (w : World),
    1 <= N ->
    int64_clock os ->
    monotonic_clock os ->
    is_success (EVM_result (fst (EVM_deploy evm caller code GAS_LIMIT))) = true ->
    calls_return (Z.to_nat N) (fst (EVM_deploy evm caller code GAS_LIMIT)) caller
      (snd (EVM_deploy evm caller code GAS_LIMIT)) data ->
    exists lines : list float,
      _benchmark os evm caller code data (Some N) w
      = (inr tt,
         {| clock_reads := clock_reads w + 2 * Z.to_nat N;
            trace := trace w ++ Deploy caller code GAS_LIMIT
                       :: loop_events os caller
                            (snd (EVM_deploy evm caller code GAS_LIMIT)) data
                            (clock_reads w) lines |})
      /\ Z.of_nat (List.length lines) = N
      /\ printed (Deploy caller code GAS_LIMIT
                    :: loop_events os caller
                         (snd (EVM_deploy evm caller code GAS_LIMIT)) data
                         (clock_reads w) lines) = lines
      /\ Forall2 (fun ns x => int_truediv_float ns float_1e6 = inr x)
                 (elapsed_ns os (clock_reads w) (Z.to_nat N)) lines
      /\ Forall (fun x => float_is_finite x = true /\ float_nonneg x = true) lines
      /\ written_at_calls line_buffered
           (Deploy caller code GAS_LIMIT
              :: loop_events os caller
                   (snd (EVM_deploy evm caller code GAS_LIMIT)) data
                   (clock_reads w) lines) [] []
         = map (fun i => firstn i lines) (seq 0 (Z.to_nat N))
      /\ (forall flushes,
            stdout_at_exit flushes
              (Deploy caller code GAS_LIMIT
                 :: loop_events os caller
                      (snd (EVM_deploy evm caller code GAS_LIMIT)) data
                      (clock_reads w) lines) = lines).
Proof.
  intros engine os evm caller code data N [k tr] HN Hclk Hmono Hok Hret.
  destruct (benchmark_runs os evm caller code data N k tr Hclk Hok Hret)
    as (lines & Hrun & Hlines).
  assert (List.length lines = Z.to_nat N) as Hlen.
  { pose proof (Forall2_length Hlines) as H.
    now rewrite elapsed_ns_length in H. }
  assert (printed (Deploy caller code GAS_LIMIT
                     :: loop_events os caller
                          (snd (EVM_deploy evm caller code GAS_LIMIT)) data k lines)
          = lines) as Hprinted.
  { change (printed (loop_events os caller
                       (snd (EVM_deploy evm caller code GAS_LIMIT)) data k lines)
            = lines).
    apply printed_loop_events. }
  exists lines. cbn [clock_reads trace]. split; [exact Hrun|].
  split; [lia|]. split; [exact Hprinted|].
  destruct (lines_of_nonneg _ _ Hlines (elapsed_ns_nonneg os (Z.to_nat N) Hmono k))
    as [Hquot Hsign].
  split; [exact Hquot|]. split; [exact Hsign|]. split.
  - cbn [written_at_calls].
    rewrite written_at_calls_line_buffered, Hlen. reflexivity.
  - intros flushes. now rewrite stdout_at_exit_printed.
Qed.

(** C4, as amended. What a call returns and what the engine reports after
    it are never looked at: after a successful deployment, when the [N]
    calls return, whatever the engine reports for them, the Driver runs to
    completion and every invocation is followed by its line. A call on
    which the engine raises is not caught: when call [i] is the first that
    raises, the run ends there with the engine's [RuntimeError], after the
    [i] lines of the calls before it and without a line for that call. *)
Theorem call_results_are_not_inspected :
  forall (engine : Engine) (os : OS) (evm : EVM) (caller : string)
         (code data : bytes) (N : Z) (w : World),
    0 <= N ->
    int64_clock os ->
    is_success (EVM_result (fst (EVM_deploy evm caller code GAS_LIMIT))) = true ->
    (calls_return (Z.to_nat N) (fst (EVM_deploy evm caller code GAS_LIMIT)) caller
       (snd (EVM_deploy evm caller code GAS_LIMIT)) data ->
     exists lines : list float,
       _benchmark os evm caller code data (Some N) w
       = (inr tt,
          {| clock_reads := clock_reads w + 2 * Z.to_nat N;
             trace := trace w ++ Deploy caller code GAS_LIMIT
                        :: loop_events os caller
                             (snd (EVM_deploy evm caller code GAS_LIMIT)) data
                             (clock_reads w) lines |})
       /\ Z.of_nat (List.length lines) = N)
    /\ (forall (i : nat) (msg : string),
          (i < Z.to_nat N)%nat ->
          calls_return i (fst (EVM_deploy evm caller code GAS_LIMIT)) caller
            (snd (EVM_deploy evm caller code GAS_LIMIT)) data ->
          call_raises i (fst (EVM_deploy evm caller code GAS_LIMIT)) caller
            (snd (EVM_deploy evm caller code GAS_LIMIT)) data = Some msg ->
          exists lines : list float,
            _benchmark os evm caller code data (Some N) w
            = (inl (RuntimeError msg),
               {| clock_reads := S (clock_reads w + 2 * i);
                  trace := trace w ++ Deploy caller code GAS_LIMIT
                             :: loop_events os caller
                                  (snd (EVM_deploy evm caller code GAS_LIMIT)) data
                                  (clock_reads w) lines
                             ++ [PerfCounter
                                   (perf_counter_ns_reading os
                                      (clock_reads w + 2 * i));
                                 MessageCall caller
                                   (snd (EVM_deploy evm caller code GAS_LIMIT))
                                   data GAS_LIMIT] |})
            /\ List.length lines = i).
Proof.
  intros engine os evm caller code data N [k tr] HN Hclk Hok. split.
  - intros Hret.
    destruct (benchmark_runs os evm caller code data N k tr Hclk Hok Hret)
      as (lines & Hrun & Hlines).
    exists lines. split; [exact Hrun|].
    apply Forall2_length in Hlines. rewrite elapsed_ns_length in Hlines. lia.
  - intros i msg Hi Hret Hraise.
    exact (benchmark_aborts os evm caller code data N k tr i msg Hclk Hok Hi Hret
             Hraise).
Qed.

(** C9. A negative run count is not checked: the Driver behaves as for a
    run count of zero, and after a successful deployment it completes
    having made the deployment call only. *)
Theorem negative_run_count_runs_nothing :
  forall (engine : Engine) (os : OS) (evm : EVM) (caller : string)
         (code data : bytes) (n : Z) (w : World),
    n < 0 ->
    _benchmark os evm caller code data (Some n) w
    = _benchmark os evm caller code data (Some 0) w
    /\ (is_success (EVM_result (fst (EVM_deploy evm caller code GAS_LIMIT))) = true ->
        _benchmark os evm caller code data (Some n) w
        = (inr tt, {| clock_reads := clock_reads w;
                      trace := trace w ++ [Deploy caller code GAS_LIMIT] |})).
Proof.
  intros engine os evm caller code data n w Hn.
  assert (range_len (Some n) = range_len (Some 0)) as Hlen.
  { unfold range_len. destruct (Z.leb_spec n 0); [reflexivity|lia]. }
  split.
  - unfold _benchmark. now rewrite Hlen.
  - intros Hok. rewrite benchmark_unfold. cbv zeta.
    rewrite (deploy_returns _ _ _ _ Hok), Hok.
    now replace (Z.to_nat n) with O by lia.
Qed.

(** ** Properties of the whole run ([main]) *)

Section Main.

Context {engine : Engine}.
Variable os : OS.

Lemma load_contract_data_cases (path : option string) (w : World) :
  _load_contract_data os path w =
  match path with
  | None => (inl (AssertionError_message "Contract code path is required"), w)
  | Some p =>
      match read_text os p with
      | None => (inl (Builtin OSError), w)
      | Some text =>
          match fromhex text with
          | inl e => (inl (Builtin e), w)
          | inr code => (inr code, w)
          end
      end
  end.
Proof.
  unfold _load_contract_data. destruct path as [p|]; [|reflexivity].
  destruct (read_text os p) as [text|]; [|reflexivity].
  cbn [bytes_fromhex]. now destruct (fromhex text).
Qed.

Lemma load_contract_data_world (path : option string) (w : World) :
  snd (_load_contract_data os path w) = w.
Proof.
  rewrite load_contract_data_cases.
  destruct path as [p|]; [|reflexivity].
  destruct (read_text os p) as [text|]; [|reflexivity].
  now destruct (fromhex text).
Qed.

Lemma main_unfold (args : Namespace) (w : World) :
  main os args w =
  match _load_contract_data os (contract_code_path args) w with
  | (inl e, w') => (inl e, w')
  | (inr code, w') =>
      match bytes_fromhex (calldata args) with
      | inl e => (inl (Builtin e), w')
      | inr data =>
          _benchmark os EVM_new CALLER_ADDRESS code data (num_runs args) w'
      end
  end.
Proof.
  unfold main. unfold bind at 1.
  destruct (_load_contract_data os (contract_code_path args) w) as [[e|code] w'];
    [reflexivity|].
  unfold bind at 1. now destruct (bytes_fromhex (calldata args)).
Qed.

(** [main] stops in the loader, or when decoding the call data, or goes on
    to [_benchmark] with the decoded inputs. *)
Lemma main_cases (args : Namespace) (w : World) :
  (exists e, _load_contract_data os (contract_code_path args) w = (inl e, w)
             /\ main os args w = (inl e, w))
  \/ (exists code e,
        _load_contract_data os (contract_code_path args) w = (inr code, w)
        /\ bytes_fromhex (calldata args) = inl e
        /\ main os args w = (inl (Builtin e), w))
  \/ (exists code data,
        _load_contract_data os (contract_code_path args) w = (inr code, w)
        /\ bytes_fromhex (calldata args) = inr data
        /\ main os args w
           = _benchmark os EVM_new CALLER_ADDRESS code data (num_runs args) w).
Proof.
  pose proof (load_contract_data_world (contract_code_path args) w) as Hw.
  rewrite main_unfold.
  destruct (_load_contract_data os (contract_code_path args) w) as [[e|code] w'].
  - cbn in Hw. subst w'. left. now exists e.
  - cbn in Hw. subst w'. right.
    destruct (bytes_fromhex (calldata args)) as [e|data].
    + left. now exists code, e.
    + right. now exists code, data.
Qed.

(** After the deployment call [_benchmark] calls the engine only in the
    loop. *)
Lemma benchmark_same_call (evm : EVM) (caller : string) (code data : bytes)
      (num_runs : option Z) (w : World) :
  exists after : list Event,
    trace (snd (_benchmark os evm caller code data num_runs w))
    = trace w ++ Deploy caller code GAS_LIMIT :: after
    /\ Forall (same_call caller (snd (EVM_deploy evm caller code GAS_LIMIT)) data)
              after.
Proof.
  rewrite benchmark_unfold. cbv zeta.
  destruct (EVM_deploy_raises evm caller code GAS_LIMIT) as [msg|];
    [exists []; split; [reflexivity|constructor]|].
  destruct (is_success (EVM_result (fst (EVM_deploy evm caller code GAS_LIMIT))));
    [|exists []; split; [reflexivity|constructor]].
  destruct num_runs as [N|]; [|exists []; split; [reflexivity|constructor]].
  match goal with
  | |- context [timed_loop os ?n ?evm' ?c ?a ?d ?w'] =>
      destruct (timed_loop_same_call os c a d n evm' w') as (tr' & Htr & Hall);
      destruct (timed_loop os n evm' c a d w') as [[e|r] w'']
  end; cbn [snd trace] in *; rewrite Htr; rewrite <- app_assoc;
    exists tr'; now split.
Qed.

(** Without a run count [_benchmark] stops after the deployment call, at
    [range] when the deployment succeeded. *)
Lemma benchmark_without_run_count (evm : EVM) (caller : string)
      (code data : bytes) (w : World) :
  exists e : Exception,
    _benchmark os evm caller code data None w
    = (inl e, {| clock_reads := clock_reads w;
                 trace := trace w ++ [Deploy caller code GAS_LIMIT] |})
    /\ (is_success (EVM_result (fst (EVM_deploy evm caller code GAS_LIMIT))) = true ->
        e = Builtin TypeError).
Proof.
  rewrite benchmark_unfold. cbv zeta.
  destruct (EVM_deploy_raises evm caller code GAS_LIMIT) as [msg|] eqn:Hraise.
  - eexists. split; [reflexivity|]. intros Hok.
    apply deploy_raises_on_failure in Hraise. congruence.
  - destruct (is_success (EVM_result (fst (EVM_deploy evm caller code GAS_LIMIT))));
      eexists; (split; [reflexivity|]); [reflexivity|discriminate].
Qed.

End Main.

(** C8. In a run, the deployment is made from [CALLER_ADDRESS] with
    [GAS_LIMIT]; nothing further is deployed, and every invocation is made
    from [CALLER_ADDRESS] with [GAS_LIMIT], to the address that this
    deployment returned and with the decoded call data. (A run that stops
    while loading its inputs calls the engine not at all.) *)
Theorem same_caller_gas_target_and_data :
  forall (engine : Engine) (os : OS) (args : Namespace) (w : World),
    trace (snd (main os args w)) = trace w
    \/ exists (code data : bytes) (after : list Event),
         _load_contract_data os (contract_code_path args) w = (inr code, w)
         /\ bytes_fromhex (calldata args) = inr data
         /\ trace (snd (main os args w))
            = trace w ++ Deploy CALLER_ADDRESS code GAS_LIMIT :: after
         /\ Forall (same_call CALLER_ADDRESS
                      (snd (EVM_deploy EVM_new CALLER_ADDRESS code GAS_LIMIT))
                      data) after.
Proof.
  intros engine os args w.
  destruct (main_cases os args w)
    as [(e & Hl & Hm)|[(code & e & Hl & Hd & Hm)|(code & data & Hl & Hd & Hm)]].
  - left. now rewrite Hm.
  - left. now rewrite Hm.
  - right. exists code, data.
    destruct (benchmark_same_call os EVM_new CALLER_ADDRESS code data
                (num_runs args) w) as (after & Htr & Hall).
    exists after. rewrite Hm. repeat split; assumption.
Qed.

(** C7. When the path argument, the bytecode file, the call-data argument
    or the run-count argument is absent, the run ends in an uncaught
    exception, hence with exit status 1, and prints no line. The exception is
    the [AssertionError] of the loader for an absent path, the [OSError] of
    [open] for an absent or unreadable file, the [TypeError] of
    [bytes.fromhex] for absent call data once the bytecode is loaded, and
    the [TypeError] of [range] for an absent run count once the inputs are
    decoded and the deployment has succeeded. *)
Theorem absent_input_is_fatal :
  forall (engine : Engine) (os : OS) (args : Namespace) (w : World),
    contract_code_path args = None
    \/ bytecode_text os args = None
    \/ calldata args = None
    \/ num_runs args = None ->
    (exists e, fst (main os args w) = inl e)
    /\ exit_status (fst (main os args w)) = 1
    /\ printed (trace (snd (main os args w))) = printed (trace w)
    /\ (contract_code_path args = None ->
        main os args w
        = (inl (AssertionError_message "Contract code path is required"), w))
    /\ (contract_code_path args <> None -> bytecode_text os args = None ->
        main os args w = (inl (Builtin OSError), w))
    /\ (calldata args = None ->
        forall code,
          _load_contract_data os (contract_code_path args) w = (inr code, w) ->
          main os args w = (inl (Builtin TypeError), w))
    /\ (num_runs args = None ->
        forall code data,
          _load_contract_data os (contract_code_path args) w = (inr code, w) ->
          bytes_fromhex (calldata args) = inr data ->
          is_success (EVM_result (fst (EVM_deploy EVM_new CALLER_ADDRESS code
                                         GAS_LIMIT))) = true ->
          main os args w
          = (inl (Builtin TypeError),
             {| clock_reads := clock_reads w;
                trace := trace w ++ [Deploy CALLER_ADDRESS code GAS_LIMIT] |})).
Proof.
  intros engine os args w H.
  assert (exists e, fst (main os args w) = inl e
                    /\ printed (trace (snd (main os args w))) = printed (trace w))
    as (e & He & Hprinted).
  { destruct (main_cases os args w)
      as [(e & Hl & Hm)|[(code & e & Hl & Hd & Hm)|(code & data & Hl & Hd & Hm)]].
    - rewrite Hm. now exists e.
    - rewrite Hm. now eexists.
    - rewrite load_contract_data_cases in Hl.
      destruct H as [Hp|[Hf|[Hc|Hn]]].
      + rewrite Hp in Hl. discriminate Hl.
      + unfold bytecode_text in Hf.
        destruct (contract_code_path args); [rewrite Hf in Hl|]; discriminate Hl.
      + rewrite Hc in Hd. discriminate Hd.
      + destruct (benchmark_without_run_count os EVM_new CALLER_ADDRESS code data w)
          as (e & Hrun & _).
        rewrite Hm, Hn, Hrun. cbn [fst snd trace].
        exists e. split; [reflexivity|].
        rewrite printed_app. cbn. apply app_nil_r. }
  split; [now exists e|]. split; [now rewrite He|]. split; [exact Hprinted|].
  repeat split.
  - intros Hp. rewrite main_unfold, load_contract_data_cases, Hp. reflexivity.
  - intros Hp Hf. rewrite main_unfold, load_contract_data_cases.
    unfold bytecode_text in Hf.
    destruct (contract_code_path args); [now rewrite Hf|congruence].
  - intros Hc code Hl. rewrite main_unfold, Hl, Hc. reflexivity.
  - intros Hn code data Hl Hd Hok.
    destruct (benchmark_without_run_count os EVM_new CALLER_ADDRESS code data w)
      as (e' & Hrun & He').
    rewrite main_unfold, Hl, Hd, Hn, Hrun, (He' Hok). reflexivity.
Qed.

(** ** Properties of the Input Loader *)

Lemma ascii_lower_idempotent (c : ascii) :
  ascii_lower (ascii_lower c) = ascii_lower c.
Proof. HexFacts.each_character c. Qed.

Lemma string_lower_idempotent (s : string) :
  string_lower (string_lower s) = string_lower s.
Proof.
  induction s as [|c r IH]; simpl; [reflexivity|].
  now rewrite ascii_lower_idempotent, IH.
Qed.

Lemma valid_hex_decodes (s : string) :
  valid_hex s = true -> fromhex s = inr (bytes_of_digits s).
Proof.
  intros Hv. rewrite HexFacts.fromhex_spaced_hex.
  pose proof Hv as Hd. unfold valid_hex in Hd. apply andb_prop in Hd as [_ Hd].
  destruct (HexFacts.all_hex_digits_words s Hd) as [Hw Hr].
  unfold spaced_hex. rewrite Hw, Hr. cbn [forallb]. now rewrite Hv.
Qed.

(** C6. Decoding valid hexadecimal and writing the bytes back in
    hexadecimal gives the text again, up to the case of its letters; the
    bytecode loader decodes a file with that text to the same bytes. *)
Theorem hex_round_trip :
  forall S : string,
    valid_hex S = true ->
    exists bs : bytes,
      bytes_fromhex (Some S) = inr bs
      /\ string_lower (hex_encode bs) = string_lower S
      /\ forall (engine : Engine) (os : OS) (path : string) (w : World),
           read_text os path = Some S ->
           _load_contract_data os (Some path) w = (inr bs, w).
Proof.
  intros S Hv. exists (bytes_of_digits S). cbn [bytes_fromhex].
  pose proof (valid_hex_decodes S Hv) as Hdec.
  split; [exact Hdec|]. split.
  - rewrite (HexFacts.hex_encode_digits_upto (String.length S)) by auto.
    apply string_lower_idempotent.
  - intros engine os path w Hfile.
    now rewrite load_contract_data_cases, Hfile, Hdec.
Qed.

(** C10, as amended. Whitespace is skipped where it separates whole bytes:
    a text all of whose words are valid hexadecimal decodes to the bytes
    that its digits denote, from a string and from the bytecode file. *)
Theorem whitespace_between_bytes_is_skipped :
  forall (engine : Engine) (os : OS) (s : string),
    spaced_hex s = true ->
    bytes_fromhex (Some s) = inr (bytes_of_digits (remove_whitespace s))
    /\ forall (path : string) (w : World),
         read_text os path = Some s ->
         _load_contract_data os (Some path) w
         = (inr (bytes_of_digits (remove_whitespace s)), w).
Proof.
  intros engine os s Hs.
  assert (fromhex s = inr (bytes_of_digits (remove_whitespace s))) as Hdec
    by (now rewrite HexFacts.fromhex_spaced_hex, Hs).
  split; [exact Hdec|].
  intros path w Hfile. now rewrite load_contract_data_cases, Hfile, Hdec.
Qed.

(** C5, as amended. A bytecode file or a call-data string in which some
    word is not valid hexadecimal ends the run with the [ValueError] of
    [bytes.fromhex] before anything is deployed or printed (for call data:
    once the bytecode is loaded, and with the loader's own exception
    otherwise). *)
Theorem malformed_hex_fails_before_deployment :
  forall (engine : Engine) (os : OS) (args : Namespace) (w : World),
    (exists text, bytecode_text os args = Some text /\ spaced_hex text = false)
    \/ (exists text, calldata args = Some text /\ spaced_hex text = false) ->
    (exists e, main os args w = (inl e, w))
    /\ ((exists text, bytecode_text os args = Some text /\ spaced_hex text = false) ->
        main os args w = (inl (Builtin ValueError), w))
    /\ (forall code,
          _load_contract_data os (contract_code_path args) w = (inr code, w) ->
          main os args w = (inl (Builtin ValueError), w)).
Proof.
  intros engine os args w H.
  assert ((exists text, bytecode_text os args = Some text /\ spaced_hex text = false) ->
          main os args w = (inl (Builtin ValueError), w)) as Hcode.
  { intros (text & Hfile & Hbad). unfold bytecode_text in Hfile.
    rewrite main_unfold, load_contract_data_cases.
    destruct (contract_code_path args) as [p|]; [|discriminate Hfile].
    now rewrite Hfile, HexFacts.fromhex_spaced_hex, Hbad. }
  assert (forall code,
            _load_contract_data os (contract_code_path args) w = (inr code, w) ->
            main os args w = (inl (Builtin ValueError), w)) as Hdata.
  { intros code Hl. destruct H as [Hc|(text & Harg & Hbad)].
    - exfalso. destruct Hc as (text & Hfile & Hbad). unfold bytecode_text in Hfile.
      rewrite load_contract_data_cases in Hl.
      destruct (contract_code_path args) as [p|]; [|discriminate Hfile].
      rewrite Hfile, HexFacts.fromhex_spaced_hex, Hbad in Hl. discriminate Hl.
    - rewrite main_unfold, Hl, Harg. cbn [bytes_fromhex].
      now rewrite HexFacts.fromhex_spaced_hex, Hbad. }
  split; [|split; assumption].
  destruct (main_cases os args w)
    as [(e & Hl & Hm)|[(code & e & Hl & Hd & Hm)|(code & data & Hl & Hd & Hm)]].
  - exists e. exact Hm.
  - eexists. exact Hm.
  - eexists. exact (Hdata code Hl).
Qed.

(** ** The theorems at work on a concrete run *)

Lemma mock_clock_int64 : int64_clock Mock.mock_os.
Proof.
  intros k. cbn [perf_counter_ns_reading Mock.mock_os].
  change (2 ^ 62) with 4611686018427387904.
  change (2 ^ 63) with 9223372036854775808. lia.
Defined.

Lemma mock_clock_monotonic : monotonic_clock Mock.mock_os.
Proof. intros k. cbn [perf_counter_ns_reading Mock.mock_os]. lia. Defined.

Lemma backward_clock_int64 : int64_clock Mock.backward_os.
Proof.
  intros k. cbn [perf_counter_ns_reading Mock.backward_os].
  change (2 ^ 63) with 9223372036854775808. lia.
Defined.

(** The calls of a mock engine return when it does not raise on them. *)
Lemma mock_calls_return (deploy_ok call_ok raising : bool) :
  Mock.raises_when raising call_ok = None ->
  forall (n : nat) (evm : @EVM (Mock.mock_engine deploy_ok call_ok raising))
         (caller : string) (addr : Z) (data : bytes),
    @calls_return (Mock.mock_engine deploy_ok call_ok raising) n evm caller addr data.
Proof. intros H n evm caller addr data i _. exact H. Defined.

Section HealthyEngine.

Import Mock.
Local Existing Instance healthy.


End HealthyEngine.

Section HealthyEngineRuns.

Import Mock.
Local Existing Instance healthy.

Lemma lines_in_invocation_order_witness :
  1 <= 3
  /\ int64_clock mock_os
  /\ monotonic_clock mock_os
  /\ is_success
       (EVM_result (fst (EVM_deploy EVM_new CALLER_ADDRESS contract_code GAS_LIMIT)))
     = true
  /\ calls_return (Z.to_nat 3)
       (fst (EVM_deploy EVM_new CALLER_ADDRESS contract_code GAS_LIMIT))
       CALLER_ADDRESS
       (snd (EVM_deploy EVM_new CALLER_ADDRESS contract_code GAS_LIMIT)) []
  /\ exists lines : list float,
       _benchmark mock_os EVM_new CALLER_ADDRESS contract_code [] (Some 3)
                  initial_world
       = (inr tt,
          {| clock_reads := clock_reads initial_world + 2 * Z.to_nat 3;
             trace := trace initial_world
                        ++ Deploy CALLER_ADDRESS contract_code GAS_LIMIT
                        :: loop_events mock_os CALLER_ADDRESS
                             (snd (EVM_deploy EVM_new CALLER_ADDRESS contract_code
                                     GAS_LIMIT)) []
                             (clock_reads initial_world) lines |})
       /\ Z.of_nat (List.length lines) = 3
       /\ printed (Deploy CALLER_ADDRESS contract_code GAS_LIMIT
                     :: loop_events mock_os CALLER_ADDRESS
                          (snd (EVM_deploy EVM_new CALLER_ADDRESS contract_code
                                  GAS_LIMIT)) []
                          (clock_reads initial_world) lines) = lines
       /\ Forall2 (fun ns x => int_truediv_float ns float_1e6 = inr x)
                  (elapsed_ns mock_os (clock_reads initial_world) (Z.to_nat 3))
                  lines
       /\ Forall (fun x => float_is_finite x = true /\ float_nonneg x = true)
                 lines
       /\ written_at_calls line_buffered
            (Deploy CALLER_ADDRESS contract_code GAS_LIMIT
               :: loop_events mock_os CALLER_ADDRESS
                    (snd (EVM_deploy EVM_new CALLER_ADDRESS contract_code
                            GAS_LIMIT)) []
                    (clock_reads initial_world) lines) [] []
          = map (fun i => firstn i lines) (seq 0 (Z.to_nat 3))
       /\ (forall flushes,
             stdout_at_exit flushes
               (Deploy CALLER_ADDRESS contract_code GAS_LIMIT
                  :: loop_events mock_os CALLER_ADDRESS
                       (snd (EVM_deploy EVM_new CALLER_ADDRESS contract_code
                               GAS_LIMIT)) []
                       (clock_reads initial_world) lines) = lines).
Proof.
  assert (1 <= 3) as H1 by lia.
  assert (is_success
            (EVM_result (fst (EVM_deploy EVM_new CALLER_ADDRESS contract_code
                                GAS_LIMIT)))
          = true) as H4 by reflexivity.
  assert (calls_return (Z.to_nat 3)
            (fst (EVM_deploy EVM_new CALLER_ADDRESS contract_code GAS_LIMIT))
            CALLER_ADDRESS
            (snd (EVM_deploy EVM_new CALLER_ADDRESS contract_code GAS_LIMIT)) [])
    as H5 by (apply mock_calls_return; reflexivity).
  exact (conj H1 (conj mock_clock_int64 (conj mock_clock_monotonic (conj H4
           (conj H5
              (lines_in_invocation_order healthy mock_os EVM_new CALLER_ADDRESS
                 contract_code [] 3 initial_world H1 mock_clock_int64
                 mock_clock_monotonic H4 H5)))))).
Defined.

(** C3, as stated, fails when the output is not line-buffered, as it is
    when the program writes to a pipe or a file: the stream then holds its
    lines until 8192 bytes are pending, which is more than 300 lines. On a
    run of three calls that meets every condition of the claim, no line
    has been written when the second and the third call start; the three
    lines are written at exit. *)
Lemma lines_wait_in_a_block_buffer :
  1 <= 3
  /\ is_success
       (EVM_result (fst (EVM_deploy EVM_new CALLER_ADDRESS contract_code GAS_LIMIT)))
     = true
  /\ call_raises 0 (fst (EVM_deploy EVM_new CALLER_ADDRESS contract_code GAS_LIMIT))
       CALLER_ADDRESS
       (snd (EVM_deploy EVM_new CALLER_ADDRESS contract_code GAS_LIMIT)) [] = None
  /\ call_raises 1 (fst (EVM_deploy EVM_new CALLER_ADDRESS contract_code GAS_LIMIT))
       CALLER_ADDRESS
       (snd (EVM_deploy EVM_new CALLER_ADDRESS contract_code GAS_LIMIT)) [] = None
  /\ call_raises 2 (fst (EVM_deploy EVM_new CALLER_ADDRESS contract_code GAS_LIMIT))
       CALLER_ADDRESS
       (snd (EVM_deploy EVM_new CALLER_ADDRESS contract_code GAS_LIMIT)) [] = None
  /\ fst (_benchmark mock_os EVM_new CALLER_ADDRESS contract_code [] (Some 3)
            initial_world) = inr tt
  /\ List.length
       (printed
          (trace (snd (_benchmark mock_os EVM_new CALLER_ADDRESS contract_code []
                         (Some 3) initial_world)))) = 3%nat
  /\ written_at_calls (block_buffered 300)
       (trace (snd (_benchmark mock_os EVM_new CALLER_ADDRESS contract_code []
                      (Some 3) initial_world))) [] []
     = [[]; []; []]
  /\ stdout_at_exit (block_buffered 300)
       (trace (snd (_benchmark mock_os EVM_new CALLER_ADDRESS contract_code []
                      (Some 3) initial_world)))
     = printed
         (trace (snd (_benchmark mock_os EVM_new CALLER_ADDRESS contract_code []
                        (Some 3) initial_world))).
Proof. split; [lia|]. vm_compute. repeat split; reflexivity. Qed.

Lemma negative_run_count_runs_nothing_witness :
  -3 < 0
  /\ _benchmark mock_os EVM_new CALLER_ADDRESS contract_code [] (Some (-3))
                initial_world
     = _benchmark mock_os EVM_new CALLER_ADDRESS contract_code [] (Some 0)
                  initial_world
  /\ (is_success
        (EVM_result (fst (EVM_deploy EVM_new CALLER_ADDRESS contract_code
                            GAS_LIMIT))) = true ->
      _benchmark mock_os EVM_new CALLER_ADDRESS contract_code [] (Some (-3))
                 initial_world
      = (inr tt, {| clock_reads := clock_reads initial_world;
                    trace := trace initial_world
                               ++ [Deploy CALLER_ADDRESS contract_code GAS_LIMIT] |})).
Proof.
  assert (-3 < 0) as H1 by lia.
  exact (conj H1
           (negative_run_count_runs_nothing healthy mock_os EVM_new CALLER_ADDRESS
              contract_code [] (-3) initial_world H1)).
Defined.

Lemma malformed_hex_fails_before_deployment_witness :
  ((exists text, bytecode_text mock_os broken_args = Some text
                 /\ spaced_hex text = false)
   \/ (exists text, calldata broken_args = Some text /\ spaced_hex text = false))
  /\ (exists e, main mock_os broken_args initial_world = (inl e, initial_world))
  /\ ((exists text, bytecode_text mock_os broken_args = Some text
                    /\ spaced_hex text = false) ->
      main mock_os broken_args initial_world
      = (inl (Builtin ValueError), initial_world))
  /\ (forall code,
        _load_contract_data mock_os (contract_code_path broken_args) initial_world
        = (inr code, initial_world) ->
        main mock_os broken_args initial_world
        = (inl (Builtin ValueError), initial_world)).
Proof.
  assert ((exists text, bytecode_text mock_os broken_args = Some text
                        /\ spaced_hex text = false)
          \/ (exists text, calldata broken_args = Some text
                           /\ spaced_hex text = false)) as H1.
  { left. exists "60g0"%string. split; reflexivity. }
  exact (conj H1
           (malformed_hex_fails_before_deployment healthy mock_os broken_args
              initial_world H1)).
Defined.

Lemma absent_input_is_fatal_witness :
  (contract_code_path no_args = None
   \/ bytecode_text mock_os no_args = None
   \/ calldata no_args = None
   \/ num_runs no_args = None)
  /\ (exists e, fst (main mock_os no_args initial_world) = inl e)
  /\ exit_status (fst (main mock_os no_args initial_world)) = 1
  /\ printed (trace (snd (main mock_os no_args initial_world)))
     = printed (trace initial_world).
Proof.
  assert (contract_code_path no_args = None
          \/ bytecode_text mock_os no_args = None
          \/ calldata no_args = None
          \/ num_runs no_args = None) as H1 by (left; reflexivity).
  pose proof (absent_input_is_fatal healthy mock_os no_args initial_world H1)
    as (Hfatal & Hexit & Hprinted & _).
  exact (conj H1 (conj Hfatal (conj Hexit Hprinted))).
Defined.

Lemma whitespace_between_bytes_is_skipped_witness :
  spaced_hex contract_text = true
  /\ bytes_fromhex (Some contract_text)
     = inr (bytes_of_digits (remove_whitespace contract_text))
  /\ forall (path : string) (w : World),
       read_text mock_os path = Some contract_text ->
       _load_contract_data mock_os (Some path) w
       = (inr (bytes_of_digits (remove_whitespace contract_text)), w).
Proof.
  assert (spaced_hex contract_text = true) as H1 by reflexivity.
  exact (conj H1
           (whitespace_between_bytes_is_skipped healthy mock_os contract_text H1)).
Defined.

(** C5, as stated, fails on a bytecode file that ends in a newline: its
    text has an odd number of characters, one of which is not a
    hexadecimal digit, and the run deploys, prints its two lines and
    completes. *)
Lemma trailing_newline_is_not_malformed :
  bytecode_text mock_os (mock_args 2) = Some contract_text
  /\ valid_hex contract_text = false
  /\ Nat.even (String.length contract_text) = false
  /\ all_hex_digits contract_text = false
  /\ fst (main mock_os (mock_args 2) initial_world) = inr tt
  /\ exit_status (fst (main mock_os (mock_args 2) initial_world)) = 0
  /\ deployments (trace (snd (main mock_os (mock_args 2) initial_world)))
     = [Deploy CALLER_ADDRESS contract_code GAS_LIMIT]
  /\ List.length (printed (trace (snd (main mock_os (mock_args 2) initial_world))))
     = 2%nat.
Proof. vm_compute. repeat split; reflexivity. Qed.

End HealthyEngineRuns.

Section FailingDeployment.

Import Mock.
Local Existing Instance failing_deploy.

(** The engine raises on the failed deployment, as [pyrevm] does. *)
Lemma failed_deployment_is_fatal_witness :
  is_success
    (EVM_result (fst (EVM_deploy EVM_new CALLER_ADDRESS contract_code GAS_LIMIT)))
  = false
  /\ EVM_deploy_raises EVM_new CALLER_ADDRESS contract_code GAS_LIMIT
     = Some "revert"%string
  /\ _benchmark mock_os EVM_new CALLER_ADDRESS contract_code [] (Some 3)
                initial_world
     = (inl (RuntimeError "revert"),
        {| clock_reads := clock_reads initial_world;
           trace := trace initial_world
                      ++ [Deploy CALLER_ADDRESS contract_code GAS_LIMIT] |})
  /\ invocations
       (trace (snd (_benchmark mock_os EVM_new CALLER_ADDRESS contract_code []
                      (Some 3) initial_world)))
     = invocations (trace initial_world)
  /\ printed
       (trace (snd (_benchmark mock_os EVM_new CALLER_ADDRESS contract_code []
                      (Some 3) initial_world)))
     = printed (trace initial_world).
Proof.
  assert (is_success
            (EVM_result (fst (EVM_deploy EVM_new CALLER_ADDRESS contract_code
                                GAS_LIMIT)))
          = false) as H1 by reflexivity.
  assert (EVM_deploy_raises EVM_new CALLER_ADDRESS contract_code GAS_LIMIT
          = Some "revert"%string) as H2 by reflexivity.
  exact (conj H1 (conj H2
           (failed_deployment_is_fatal failing_deploy mock_os EVM_new
              CALLER_ADDRESS contract_code [] (Some 3) initial_world H1))).
Defined.

End FailingDeployment.

Section RevertingCalls.

Import Mock.
Local Existing Instance reverting_calls.

(** C4, as stated, fails on an engine that raises on a call that fails, as
    [pyrevm] does on a call that reverts: after a successful deployment the
    first call of a run of three fails, and the run ends there with the
    engine's [RuntimeError], having made one call and printed no line. *)
Lemma reverting_call_aborts_the_run :
  is_success
    (EVM_result (fst (EVM_deploy EVM_new CALLER_ADDRESS contract_code GAS_LIMIT)))
  = true
  /\ is_success
       (EVM_result
          (fst (EVM_message_call
                  (fst (EVM_deploy EVM_new CALLER_ADDRESS contract_code GAS_LIMIT))
                  CALLER_ADDRESS
                  (snd (EVM_deploy EVM_new CALLER_ADDRESS contract_code GAS_LIMIT))
                  [] GAS_LIMIT)))
     = false
  /\ _benchmark mock_os EVM_new CALLER_ADDRESS contract_code [] (Some 3)
                initial_world
     = (inl (RuntimeError "revert"),
        {| clock_reads := 1;
           trace := [Deploy CALLER_ADDRESS contract_code GAS_LIMIT;
                     PerfCounter 0;
                     MessageCall CALLER_ADDRESS
                       (snd (EVM_deploy EVM_new CALLER_ADDRESS contract_code
                               GAS_LIMIT)) [] GAS_LIMIT] |})
  /\ exit_status
       (fst (_benchmark mock_os EVM_new CALLER_ADDRESS contract_code [] (Some 3)
               initial_world)) = 1
  /\ printed
       (trace (snd (_benchmark mock_os EVM_new CALLER_ADDRESS contract_code []
                      (Some 3) initial_world))) = [].
Proof. vm_compute. repeat split; reflexivity. Qed.

End RevertingCalls.

(** An engine whose calls all return and report failure: the three lines
    are printed. An engine that raises on its first call: the run ends
    there. *)
Lemma call_results_are_not_inspected_witness :
  0 <= 3
  /\ int64_clock Mock.mock_os
  /\ is_success (Engine := Mock.failing_calls)
       (EVM_result (fst (EVM_deploy EVM_new CALLER_ADDRESS Mock.contract_code
                           GAS_LIMIT)))
     = true
  /\ (forall evm : EVM,
        is_success (Engine := Mock.failing_calls)
          (EVM_result
             (fst (EVM_message_call evm CALLER_ADDRESS
                     (snd (EVM_deploy EVM_new CALLER_ADDRESS Mock.contract_code
                             GAS_LIMIT)) [] GAS_LIMIT))) = false)
  /\ calls_return (engine := Mock.failing_calls) (Z.to_nat 3)
       (fst (EVM_deploy EVM_new CALLER_ADDRESS Mock.contract_code GAS_LIMIT))
       CALLER_ADDRESS
       (snd (EVM_deploy EVM_new CALLER_ADDRESS Mock.contract_code GAS_LIMIT)) []
  /\ (exists lines : list float,
        _benchmark (engine := Mock.failing_calls) Mock.mock_os EVM_new
                   CALLER_ADDRESS Mock.contract_code [] (Some 3) initial_world
        = (inr tt,
           {| clock_reads := clock_reads (initial_world (engine := Mock.failing_calls)) + 2 * Z.to_nat 3;
              trace := trace initial_world
                         ++ Deploy CALLER_ADDRESS Mock.contract_code GAS_LIMIT
                         :: loop_events Mock.mock_os CALLER_ADDRESS
                              (snd (EVM_deploy EVM_new CALLER_ADDRESS
                                      Mock.contract_code GAS_LIMIT)) []
                              (clock_reads (initial_world (engine := Mock.failing_calls))) lines |})
        /\ Z.of_nat (List.length lines) = 3)
  /\ is_success (Engine := Mock.reverting_calls)
       (EVM_result (fst (EVM_deploy EVM_new CALLER_ADDRESS Mock.contract_code
                           GAS_LIMIT)))
     = true
  /\ (0 < Z.to_nat 3)%nat
  /\ calls_return (engine := Mock.reverting_calls) 0
       (fst (EVM_deploy EVM_new CALLER_ADDRESS Mock.contract_code GAS_LIMIT))
       CALLER_ADDRESS
       (snd (EVM_deploy EVM_new CALLER_ADDRESS Mock.contract_code GAS_LIMIT)) []
  /\ call_raises (engine := Mock.reverting_calls) 0
       (fst (EVM_deploy EVM_new CALLER_ADDRESS Mock.contract_code GAS_LIMIT))
       CALLER_ADDRESS
       (snd (EVM_deploy EVM_new CALLER_ADDRESS Mock.contract_code GAS_LIMIT)) []
     = Some "revert"%string
  /\ (exists lines : list float,
        _benchmark (engine := Mock.reverting_calls) Mock.mock_os EVM_new
                   CALLER_ADDRESS Mock.contract_code [] (Some 3) initial_world
        = (inl (RuntimeError "revert"),
           {| clock_reads := S (clock_reads (initial_world (engine := Mock.reverting_calls)) + 2 * 0);
              trace := trace initial_world
                         ++ Deploy CALLER_ADDRESS Mock.contract_code GAS_LIMIT
                         :: loop_events Mock.mock_os CALLER_ADDRESS
                              (snd (EVM_deploy EVM_new CALLER_ADDRESS
                                      Mock.contract_code GAS_LIMIT)) []
                              (clock_reads (initial_world (engine := Mock.reverting_calls))) lines
                         ++ [PerfCounter
                               (perf_counter_ns_reading Mock.mock_os
                                  (clock_reads (initial_world (engine := Mock.reverting_calls)) + 2 * 0));
                             MessageCall CALLER_ADDRESS
                               (snd (EVM_deploy EVM_new CALLER_ADDRESS
                                       Mock.contract_code GAS_LIMIT))
                               [] GAS_LIMIT] |})
        /\ List.length lines = 0%nat).
Proof.
  assert (0 <= 3) as H1 by lia.
  assert (is_success (Engine := Mock.failing_calls)
            (EVM_result (fst (EVM_deploy EVM_new CALLER_ADDRESS Mock.contract_code
                                GAS_LIMIT)))
          = true) as H3 by reflexivity.
  assert (calls_return (engine := Mock.failing_calls) (Z.to_nat 3)
            (fst (EVM_deploy EVM_new CALLER_ADDRESS Mock.contract_code GAS_LIMIT))
            CALLER_ADDRESS
            (snd (EVM_deploy EVM_new CALLER_ADDRESS Mock.contract_code GAS_LIMIT))
            []) as H4 by (apply mock_calls_return; reflexivity).
  assert (is_success (Engine := Mock.reverting_calls)
            (EVM_result (fst (EVM_deploy EVM_new CALLER_ADDRESS Mock.contract_code
                                GAS_LIMIT)))
          = true) as H5 by reflexivity.
  assert (0 < Z.to_nat 3)%nat as H6 by (cbn; lia).
  assert (calls_return (engine := Mock.reverting_calls) 0
            (fst (EVM_deploy EVM_new CALLER_ADDRESS Mock.contract_code GAS_LIMIT))
            CALLER_ADDRESS
            (snd (EVM_deploy EVM_new CALLER_ADDRESS Mock.contract_code GAS_LIMIT))
            []) as H7 by (intros i Hi; inversion Hi).
  assert (call_raises (engine := Mock.reverting_calls) 0
            (fst (EVM_deploy EVM_new CALLER_ADDRESS Mock.contract_code GAS_LIMIT))
            CALLER_ADDRESS
            (snd (EVM_deploy EVM_new CALLER_ADDRESS Mock.contract_code GAS_LIMIT))
            [] = Some "revert"%string) as H8 by reflexivity.
  refine (conj H1 (conj mock_clock_int64 (conj H3 (conj _ (conj H4 (conj
            (proj1 (call_results_are_not_inspected Mock.failing_calls Mock.mock_os
                      EVM_new CALLER_ADDRESS Mock.contract_code [] 3 initial_world
                      H1 mock_clock_int64 H3) H4)
            (conj H5 (conj H6 (conj H7 (conj H8
               (proj2 (call_results_are_not_inspected Mock.reverting_calls
                         Mock.mock_os EVM_new CALLER_ADDRESS Mock.contract_code []
                         3 initial_world H1 mock_clock_int64 H5)
                  0%nat "revert"%string H6 H7 H8))))))))))).
  intros evm. reflexivity.
Defined.

Lemma hex_round_trip_witness :
  valid_hex "60aB" = true
  /\ exists bs : bytes,
       bytes_fromhex (Some "60aB"%string) = inr bs
       /\ string_lower (hex_encode bs) = string_lower "60aB"
       /\ forall (engine : Engine) (os : OS) (path : string) (w : World),
            read_text os path = Some "60aB"%string ->
            _load_contract_data os (Some path) w = (inr bs, w).
Proof.
  assert (valid_hex "60aB" = true) as H1 by reflexivity.
  exact (conj H1 (hex_round_trip "60aB" H1)).
Defined.

(** C10, as stated, fails when whitespace stands between the two digits of
    a byte: without its whitespace the text is valid hexadecimal for the
    byte 96, and the decoder raises [ValueError]. *)
Lemma whitespace_inside_a_byte_is_rejected :
  remove_whitespace "6 0" = "60"%string
  /\ valid_hex (remove_whitespace "6 0") = true
  /\ bytes_of_digits (remove_whitespace "6 0") = [96]
  /\ bytes_fromhex (Some "6 0"%string) = inl ValueError.
Proof. repeat split; reflexivity. Qed.

(** ** Further properties of the decoder *)

Lemma string_length_ind (P : string -> Prop) :
  (forall s, (forall t, (String.length t < String.length s)%nat -> P t) -> P s) ->
  forall s, P s.
Proof.
  intros Hstep s.
  assert (forall n t, (String.length t < n)%nat -> P t) as Hall.
  { induction n as [|n IH]; intros t Ht; [lia|].
    apply Hstep. intros u Hu. apply IH. lia. }
  apply (Hall (S (String.length s))). lia.
Qed.

Lemma digit_value_nonneg (c : ascii) : 0 <= _PyLong_DigitValue c.
Proof. HexFacts.each_character c. Qed.

Lemma Py_ISSPACE_lower (c : ascii) : Py_ISSPACE (ascii_lower c) = Py_ISSPACE c.
Proof. HexFacts.each_character c. Qed.

Lemma digit_value_lower (c : ascii) :
  _PyLong_DigitValue (ascii_lower c) = _PyLong_DigitValue c.
Proof. HexFacts.each_character c. Qed.

Lemma digit_not_space (c : ascii) :
  (16 <=? _PyLong_DigitValue c) = false -> ascii_whitespace c = false.
Proof.
  rewrite HexFacts.not_digit_value. intros Hd.
  destruct (ascii_whitespace c) eqn:Wc; [|reflexivity].
  apply HexFacts.whitespace_not_digit in Wc. rewrite Wc in Hd. discriminate Hd.
Qed.

(** X1. The decoder succeeds exactly on the texts in which every
    whitespace-delimited word is valid hexadecimal, and the only exception it
    raises on a string is [ValueError]. *)
Theorem fromhex_succeeds_iff_spaced_hex :
  forall s : string,
    ((exists bs, bytes_fromhex (Some s) = inr bs) <-> spaced_hex s = true)
    /\ (forall e, bytes_fromhex (Some s) = inl e -> e = ValueError).
Proof.
  intros s. cbn [bytes_fromhex]. rewrite HexFacts.fromhex_spaced_hex.
  destruct (spaced_hex s); split.
  - split; [reflexivity|]. intros _. now eexists.
  - intros e He. discriminate He.
  - split; [intros (bs & Hbs); discriminate Hbs|intros H; discriminate H].
  - intros e He. now inversion He.
Qed.

(** X2. What the decoder returns is a sequence of bytes, each in
    [0, 256), one for every two characters of the text that are not
    whitespace. *)
Theorem fromhex_bytes_and_length :
  forall (s : string) (bs : bytes),
    bytes_fromhex (Some s) = inr bs ->
    Forall (fun b => 0 <= b < 256) bs
    /\ (2 * List.length bs = String.length (remove_whitespace s))%nat.
Proof.
  cbn [bytes_fromhex].
  induction s as [s IH] using string_length_ind. intros bs H.
  destruct s as [|c r].
  - inversion H; subst. split; [constructor|reflexivity].
  - cbn [fromhex] in H. cbn [remove_whitespace].
    rewrite HexFacts.Py_ISSPACE_whitespace in H.
    destruct (ascii_whitespace c) eqn:Wc.
    + apply IH; [simpl; lia|exact H].
    + destruct (16 <=? _PyLong_DigitValue c) eqn:Hc; [discriminate H|].
      destruct r as [|d r']; [discriminate H|].
      destruct (16 <=? _PyLong_DigitValue d) eqn:Hd; [discriminate H|].
      destruct (fromhex r') as [e|bs'] eqn:Hr; [discriminate H|].
      assert (bs = (Z.shiftl (_PyLong_DigitValue c) 4 + _PyLong_DigitValue d) :: bs')
        as -> by congruence.
      destruct (IH r' ltac:(simpl; lia) bs' Hr) as [Hrange Hlen].
      cbn [remove_whitespace]. rewrite (digit_not_space d Hd).
      split.
      * constructor; [|exact Hrange].
        rewrite HexFacts.shiftl_4.
        pose proof (digit_value_nonneg c). pose proof (digit_value_nonneg d).
        apply Z.leb_gt in Hc, Hd. lia.
      * cbn [List.length String.length]. lia.
Qed.

(** X3. Decoding composes over concatenation: after a text that decodes,
    any text decodes as it would alone, and the bytes are appended. *)
Theorem fromhex_append :
  forall (a b : string) (x : bytes),
    bytes_fromhex (Some a) = inr x ->
    bytes_fromhex (Some (a ++ b)%string)
    = match bytes_fromhex (Some b) with
      | inl e => inl e
      | inr y => inr (x ++ y)
      end.
Proof.
  cbn [bytes_fromhex].
  induction a as [a IH] using string_length_ind. intros b x H.
  destruct a as [|c r].
  - inversion H; subst. cbn [String.append app]. now destruct (fromhex b).
  - cbn [fromhex] in H. cbn [String.append fromhex].
    destruct (Py_ISSPACE c).
    + apply IH; [simpl; lia|exact H].
    + destruct (16 <=? _PyLong_DigitValue c); [discriminate H|].
      destruct r as [|d r']; [discriminate H|].
      cbn [String.append].
      destruct (16 <=? _PyLong_DigitValue d); [discriminate H|].
      destruct (fromhex r') as [e|x'] eqn:Hr; [discriminate H|].
      assert (x = (Z.shiftl (_PyLong_DigitValue c) 4 + _PyLong_DigitValue d) :: x')
        as -> by congruence.
      rewrite (IH r' ltac:(simpl; lia) b x' Hr).
      now destruct (fromhex b).
Qed.

Lemma fromhex_lower (s : string) : fromhex (string_lower s) = fromhex s.
Proof.
  induction s as [s IH] using string_length_ind.
  destruct s as [|c r]; [reflexivity|].
  cbn [string_lower fromhex]. rewrite Py_ISSPACE_lower, digit_value_lower.
  destruct (Py_ISSPACE c); [apply IH; simpl; lia|].
  destruct (16 <=? _PyLong_DigitValue c); [reflexivity|].
  destruct r as [|d r']; [reflexivity|].
  cbn [string_lower]. rewrite digit_value_lower.
  destruct (16 <=? _PyLong_DigitValue d); [reflexivity|].
  now rewrite (IH r') by (simpl; lia).
Qed.

(** X4. The decoder ignores the case of letters: two texts that are equal
    up to case decode alike (to the same bytes, or both to the error). *)
Theorem fromhex_ignores_case :
  forall s t : string,
    string_lower s = string_lower t ->
    bytes_fromhex (Some s) = bytes_fromhex (Some t).
Proof.
  intros s t H. cbn [bytes_fromhex].
  now rewrite <- (fromhex_lower s), <- (fromhex_lower t), H.
Qed.

Lemma hex_char_digit (v : Z) :
  0 <= v < 16 ->
  Py_ISSPACE (hex_char v) = false /\ _PyLong_DigitValue (hex_char v) = v.
Proof.
  intros Hv.
  assert (v = 0 \/ v = 1 \/ v = 2 \/ v = 3 \/ v = 4 \/ v = 5 \/ v = 6 \/ v = 7 \/
          v = 8 \/ v = 9 \/ v = 10 \/ v = 11 \/ v = 12 \/ v = 13 \/ v = 14 \/
          v = 15) as H by lia.
  repeat (destruct H as [->|H]; [now split|]). subst v. now split.
Qed.

Lemma byte_nibbles (b : Z) :
  0 <= b < 256 ->
  0 <= Z.land (Z.shiftr b 4) 15 < 16
  /\ 0 <= Z.land b 15 < 16
  /\ Z.shiftl (Z.land (Z.shiftr b 4) 15) 4 + Z.land b 15 = b.
Proof.
  intros Hb. change 15 with (Z.ones 4).
  rewrite !Z.land_ones, Z.shiftr_div_pow2, Z.shiftl_mul_pow2 by lia.
  change (2 ^ 4) with 16.
  pose proof (Z.div_mod b 16 ltac:(lia)) as Hdm.
  pose proof (Z.mod_pos_bound b 16 ltac:(lia)) as Hm.
  assert (0 <= b / 16 < 16) as Hq
    by (split; [apply Z.div_pos; lia|apply Z.div_lt_upper_bound; lia]).
  rewrite (Z.mod_small (b / 16) 16) by lia. lia.
Qed.

(** X5. Every sequence of bytes is the decoding of its own two-digit
    lower-case hexadecimal text. *)
Theorem fromhex_hex_encode :
  forall bs : bytes,
    Forall (fun b => 0 <= b < 256) bs ->
    bytes_fromhex (Some (hex_encode bs)) = inr bs.
Proof.
  cbn [bytes_fromhex]. induction 1 as [|b bs Hb _ IH]; [reflexivity|].
  destruct (byte_nibbles b Hb) as (Hhi & Hlo & Hsum).
  destruct (hex_char_digit _ Hhi) as [Shi Dhi].
  destruct (hex_char_digit _ Hlo) as [Slo Dlo].
  cbn [hex_encode fromhex]. rewrite Shi, Dhi, Dlo, IH, Hsum.
  replace (16 <=? Z.land (Z.shiftr b 4) 15) with false
    by (symmetry; apply Z.leb_gt; lia).
  replace (16 <=? Z.land b 15) with false by (symmetry; apply Z.leb_gt; lia).
  reflexivity.
Qed.

Lemma remove_whitespace_empty_decodes (s : string) :
  remove_whitespace s = EmptyString -> fromhex s = inr [].
Proof.
  induction s as [|c r IH]; [reflexivity|]. cbn [remove_whitespace fromhex].
  rewrite HexFacts.Py_ISSPACE_whitespace.
  destruct (ascii_whitespace c); [exact IH|discriminate].
Qed.

(** X6. An empty bytecode file, or one that holds whitespace only, is not
    rejected: the loader returns the empty byte sequence. *)
Theorem blank_file_loads_as_no_bytes :
  forall (engine : Engine) (os : OS) (path text : string) (w : World),
    read_text os path = Some text ->
    remove_whitespace text = EmptyString ->
    _load_contract_data os (Some path) w = (inr [], w).
Proof.
  intros engine os path text w Hfile Hblank.
  rewrite load_contract_data_cases, Hfile.
  now rewrite (remove_whitespace_empty_decodes text Hblank).
Qed.

(** ** Further properties of the run *)

Lemma fromhex_error (s : string) (e : BuiltinError) :
  fromhex s = inl e -> e = ValueError.
Proof.
  rewrite HexFacts.fromhex_spaced_hex. destruct (spaced_hex s); congruence.
Qed.

Lemma fromhex_success_spaced (s : string) (bs : bytes) :
  fromhex s = inr bs ->
  spaced_hex s = true /\ bs = bytes_of_digits (remove_whitespace s).
Proof.
  rewrite HexFacts.fromhex_spaced_hex. destruct (spaced_hex s); [|discriminate].
  intros H. split; [reflexivity|congruence].
Qed.

Section Runs.

Context {engine : Engine}.
Variable os : OS.

(** The loop under any clock and any engine: it ends normally after [n]
    calls and [n] lines, or in an iteration that has made its call and not
    printed its line: with the engine's [RuntimeError], the clock read once
    in that iteration, or with [OverflowError], the clock read twice. *)
Lemma timed_loop_counts (caller : string) (addr : Address) (data : bytes) (n : nat) :
  forall (evm : EVM) (w : World),
  exists tr' : list Event,
    trace (snd (timed_loop os n evm caller addr data w)) = trace w ++ tr'
    /\ (List.length (invocations tr') <= n)%nat
    /\ match fst (timed_loop os n evm caller addr data w) with
       | inr _ =>
           List.length (printed tr') = n
           /\ List.length (invocations tr') = n
           /\ clock_reads (snd (timed_loop os n evm caller addr data w))
              = (clock_reads w + 2 * n)%nat
       | inl e =>
           List.length (invocations tr') = S (List.length (printed tr'))
           /\ ((e = Builtin OverflowError
                /\ clock_reads (snd (timed_loop os n evm caller addr data w))
                   = (clock_reads w + 2 * List.length (invocations tr'))%nat)
               \/ (exists msg, e = RuntimeError msg)
                  /\ S (clock_reads (snd (timed_loop os n evm caller addr data w)))
                     = (clock_reads w + 2 * List.length (invocations tr'))%nat)
       end.
Proof.
  induction n as [|n IH]; intros evm w.
  - exists []. cbn. rewrite app_nil_r. repeat split; lia.
  - cbn [timed_loop]. run_step.
    destruct (EVM_message_call_raises evm caller addr data GAS_LIMIT) as [msg|];
      run_step.
    { eexists. split; [rewrite <- !app_assoc; reflexivity|].
      cbn. split; [lia|]. split; [reflexivity|].
      right. split; [now exists msg|lia]. }
    destruct (int_truediv_float _ float_1e6) as [e|x] eqn:Hdiv;
      cbn [builtin]; run_step.
    + apply int_truediv_error in Hdiv. subst e.
      eexists. split; [rewrite <- !app_assoc; reflexivity|].
      cbn. split; [lia|]. split; [reflexivity|]. left. split; [reflexivity|lia].
    + match goal with
      | |- context [timed_loop os n ?evm' caller addr data ?w'] =>
          destruct (IH evm' w') as (tr' & Htr & Hle & Hend);
          destruct (timed_loop os n evm' caller addr data w') as [r w'']
      end.
      cbn [fst snd trace clock_reads] in *. rewrite Htr.
      eexists. split; [rewrite <- !app_assoc; reflexivity|].
      unfold invocations, printed in *.
      cbn [app filter is_message_call flat_map List.length].
      split; [lia|].
      destruct r as [e|evm''].
      * destruct Hend as [H1 [[He Hc]|[He Hc]]].
        -- split; [lia|]. left. split; [exact He|lia].
        -- split; [lia|]. right. split; [exact He|lia].
      * destruct Hend as (H1 & H2 & Hc). repeat split; lia.
Qed.

(** With a 64-bit clock the division never ends the loop. *)
Lemma timed_loop_no_overflow (caller : string) (addr : Address) (data : bytes)
      (n : nat) :
  int64_clock os ->
  forall (evm : EVM) (k : nat) (tr : list Event),
    fst (timed_loop os n evm caller addr data {| clock_reads := k; trace := tr |})
    <> inl (Builtin OverflowError).
Proof.
  intros Hclk. induction n as [|n IH]; intros evm k tr.
  - cbn. discriminate.
  - destruct (EVM_message_call_raises evm caller addr data GAS_LIMIT) as [msg|]
      eqn:Hraise.
    + cbn [timed_loop]. run_step. rewrite Hraise. cbn. discriminate.
    + destruct (timed_loop_step os caller addr data n evm k tr Hclk Hraise)
        as (x & _ & Hstep).
      rewrite Hstep. apply IH.
Qed.

Lemma benchmark_exceptions (evm : EVM) (caller : string) (code data : bytes)
      (num_runs : option Z) (w : World) (e : Exception) :
  fst (_benchmark os evm caller code data num_runs w) = inl e ->
  e <> Builtin ZeroDivisionError
  /\ (forall r, e = AssertionError_result r -> is_success r = false)
  /\ (int64_clock os -> e <> Builtin OverflowError).
Proof.
  rewrite benchmark_unfold. cbv zeta.
  destruct (EVM_deploy_raises evm caller code GAS_LIMIT) as [msg|].
  { cbn [fst]. intros He. injection He as <-.
    split; [discriminate|]. split; [discriminate|]. discriminate. }
  destruct (is_success (EVM_result (fst (EVM_deploy evm caller code GAS_LIMIT))))
    eqn:Hok.
  - destruct num_runs as [N|].
    + destruct w as [k tr]. cbn [clock_reads trace].
      match goal with
      | |- context [timed_loop os ?n ?evm' caller ?addr data ?w'] =>
          pose proof (timed_loop_counts caller addr data n evm' w')
            as (tr' & _ & _ & Hend);
          pose proof (fun H => timed_loop_no_overflow caller addr data n H evm'
                                 (clock_reads w') (trace w')) as Hno;
          cbn [clock_reads trace] in Hno;
          destruct (timed_loop os n evm' caller addr data w') as [[e'|r] w2]
      end; cbn [fst snd] in *; intros He; [|discriminate He].
      injection He as <-.
      split; [|split].
      * destruct Hend as [_ [[-> _]|[[msg ->] _]]]; discriminate.
      * destruct Hend as [_ [[-> _]|[[msg ->] _]]]; discriminate.
      * intros Hclk ->. now apply (Hno Hclk).
    + cbn [fst]. intros He. injection He as <-.
      split; [discriminate|]. split; [discriminate|]. discriminate.
  - cbn [fst]. intros He. injection He as <-.
    split; [discriminate|]. split; [|discriminate].
    intros r Hr. injection Hr as <-. exact Hok.
Qed.

End Runs.


(** X8. The division [(end - start) / 1e6] never ends a run with
    [ZeroDivisionError], and on a 64-bit clock never with [OverflowError]
    either; an [AssertionError] that carries a result of the engine carries
    one that is not a success. *)
Theorem main_exceptions :
  forall (engine : Engine) (os : OS) (args : Namespace) (w : World) (e : Exception),
    fst (main os args w) = inl e ->
    e <> Builtin ZeroDivisionError
    /\ (forall r, e = AssertionError_result r -> is_success r = false)
    /\ (int64_clock os -> e <> Builtin OverflowError).
Proof.
  intros engine os args w e.
  destruct (main_cases os args w)
    as [(e' & Hl & Hm)|[(code & e' & Hl & Hd & Hm)|(code & data & Hl & Hd & Hm)]];
    rewrite Hm.
  - cbn [fst snd]. intros He. injection He as <-.
    rewrite load_contract_data_cases in Hl.
    destruct (contract_code_path args) as [p|].
    + destruct (read_text os p) as [text|].
      * destruct (fromhex text) as [e0|bs] eqn:Hhex; [|discriminate Hl].
        apply fromhex_error in Hhex. subst e0. injection Hl as <-.
        split; [discriminate|]. split; discriminate.
      * injection Hl as <-. split; [discriminate|]. split; discriminate.
    + injection Hl as <-. split; [discriminate|]. split; discriminate.
  - cbn [fst snd]. intros He. injection He as <-.
    destruct (calldata args) as [s|]; cbn [bytes_fromhex] in Hd.
    + apply fromhex_error in Hd. subst e'.
      split; [discriminate|]. split; discriminate.
    + injection Hd as <-. split; [discriminate|]. split; discriminate.
  - intros He. exact (benchmark_exceptions os _ _ _ _ _ _ _ He).
Qed.

(** X9. With a readable bytecode file and call data in which every word is
    valid hexadecimal, a run count [N], a 64-bit clock, a deployment that
    the engine reports successful and [N] calls that return, the run
    completes with exit status 0: it deploys the bytes denoted by the file
    from [CALLER_ADDRESS], then makes [N] timed calls (none for [N <= 0])
    with the bytes denoted by the call data, printing one line after
    each. *)
Theorem main_runs :
  forall (engine : Engine) (os : OS) (args : Namespace) (w : World)
         (text arg : string) (N : Z),
    bytecode_text os args = Some text ->
    spaced_hex text = true ->
    calldata args = Some arg ->
    spaced_hex arg = true ->
    num_runs args = Some N ->
    int64_clock os ->
    is_success
      (EVM_result (fst (EVM_deploy EVM_new CALLER_ADDRESS
                          (bytes_of_digits (remove_whitespace text)) GAS_LIMIT)))
    = true ->
    calls_return (Z.to_nat N)
      (fst (EVM_deploy EVM_new CALLER_ADDRESS
              (bytes_of_digits (remove_whitespace text)) GAS_LIMIT))
      CALLER_ADDRESS
      (snd (EVM_deploy EVM_new CALLER_ADDRESS
              (bytes_of_digits (remove_whitespace text)) GAS_LIMIT))
      (bytes_of_digits (remove_whitespace arg)) ->
    exists lines : list float,
      main os args w
      = (inr tt,
         {| clock_reads := clock_reads w + 2 * Z.to_nat N;
            trace := trace w
                       ++ Deploy CALLER_ADDRESS
                            (bytes_of_digits (remove_whitespace text)) GAS_LIMIT
                       :: loop_events os CALLER_ADDRESS
                            (snd (EVM_deploy EVM_new CALLER_ADDRESS
                                    (bytes_of_digits (remove_whitespace text))
                                    GAS_LIMIT))
                            (bytes_of_digits (remove_whitespace arg))
                            (clock_reads w) lines |})
      /\ List.length lines = Z.to_nat N
      /\ exit_status (fst (main os args w)) = 0.
Proof.
  intros engine os args [k tr] text arg N Hfile Htext Harg Hdata HN Hclk Hok Hret.
  unfold bytecode_text in Hfile.
  assert (main os args {| clock_reads := k; trace := tr |}
          = _benchmark os EVM_new CALLER_ADDRESS
              (bytes_of_digits (remove_whitespace text))
              (bytes_of_digits (remove_whitespace arg)) (Some N)
              {| clock_reads := k; trace := tr |}) as Hmain.
  { rewrite main_unfold, load_contract_data_cases.
    destruct (contract_code_path args) as [p|]; [|discriminate Hfile].
    rewrite Hfile, HexFacts.fromhex_spaced_hex, Htext, Harg, HN.
    cbn [bytes_fromhex]. now rewrite HexFacts.fromhex_spaced_hex, Hdata. }
  destruct (benchmark_runs os EVM_new CALLER_ADDRESS _
              (bytes_of_digits (remove_whitespace arg)) N k tr Hclk Hok Hret)
    as (lines & Hrun & Hlines).
  exists lines. rewrite Hmain, Hrun. cbn [clock_reads trace fst exit_status].
  split; [reflexivity|]. split; [|reflexivity].
  apply Forall2_length in Hlines. now rewrite elapsed_ns_length in Hlines.
Qed.

(** X10. A run completes only if the bytecode file was read, its text and
    the call data are hexadecimal in which every word is valid, the run
    count is present and the engine reported the deployment of the decoded
    bytecode successful. *)
Theorem main_completes_only_if :
  forall (engine : Engine) (os : OS) (args : Namespace) (w : World),
    fst (main os args w) = inr tt ->
    exists (text arg : string) (N : Z),
      bytecode_text os args = Some text
      /\ spaced_hex text = true
      /\ calldata args = Some arg
      /\ spaced_hex arg = true
      /\ num_runs args = Some N
      /\ is_success
           (EVM_result (fst (EVM_deploy EVM_new CALLER_ADDRESS
                               (bytes_of_digits (remove_whitespace text))
                               GAS_LIMIT))) = true.
Proof.
  intros engine os args w.
  rewrite main_unfold, load_contract_data_cases. unfold bytecode_text.
  destruct (contract_code_path args) as [p|]; [|discriminate].
  destruct (read_text os p) as [text|]; [|discriminate].
  destruct (fromhex text) as [e|code] eqn:Htext; [discriminate|].
  apply fromhex_success_spaced in Htext as [Htext ->].
  destruct (calldata args) as [arg|]; cbn [bytes_fromhex]; [|discriminate].
  destruct (fromhex arg) as [e|data] eqn:Harg; [discriminate|].
  apply fromhex_success_spaced in Harg as [Harg ->].
  rewrite benchmark_unfold. cbv zeta.
  destruct (EVM_deploy_raises _ _ _ _) as [msg|]; [discriminate|].
  destruct (is_success _) eqn:Hok; [|discriminate].
  destruct (num_runs args) as [N|]; [|discriminate].
  intros _. exists text, arg, N. repeat split; assumption.
Qed.

(** X11. The Driver neither checks nor clamps the elapsed time: on a
    64-bit clock that may go back, a run whose deployment succeeds and
    whose calls return completes, and the line printed for each call is the
    finite quotient of its elapsed nanoseconds by [1e6], below [0.0] when
    the second reading is below the first and above [0.0] when it is above
    it. *)
Theorem negative_elapsed_is_printed_as_is :
  forall (engine : Engine) (os : OS) (evm : EVM) (caller : string)
         (code data : bytes) (N : Z) (w : World),
    int64_clock os ->
    is_success (EVM_result (fst (EVM_deploy evm caller code GAS_LIMIT))) = true ->
    calls_return (Z.to_nat N) (fst (EVM_deploy evm caller code GAS_LIMIT)) caller
      (snd (EVM_deploy evm caller code GAS_LIMIT)) data ->
    exists lines : list float,
      _benchmark os evm caller code data (Some N) w
      = (inr tt,
         {| clock_reads := clock_reads w + 2 * Z.to_nat N;
            trace := trace w ++ Deploy caller code GAS_LIMIT
                       :: loop_events os caller
                            (snd (EVM_deploy evm caller code GAS_LIMIT)) data
                            (clock_reads w) lines |})
      /\ printed (loop_events os caller
                    (snd (EVM_deploy evm caller code GAS_LIMIT)) data
                    (clock_reads w) lines) = lines
      /\ Forall2 (fun ns x =>
                    int_truediv_float ns float_1e6 = inr x
                    /\ float_is_finite x = true
                    /\ (ns < 0 -> SFltb x (S754_zero false) = true)
                    /\ (0 < ns -> SFltb (S754_zero false) x = true))
                 (elapsed_ns os (clock_reads w) (Z.to_nat N)) lines.
Proof.
  intros engine os evm caller code data N [k tr] Hclk Hok Hret.
  destruct (benchmark_runs os evm caller code data N k tr Hclk Hok Hret)
    as (lines & Hrun & Hlines).
  exists lines. cbn [clock_reads trace]. split; [exact Hrun|].
  split; [apply printed_loop_events|].
  clear Hrun. induction Hlines as [|ns x l lines' (Hx & Hfin & _ & Hpos & Hneg) _ IH];
    constructor; auto.
Qed.

(** ** The further properties at work *)

Lemma fromhex_bytes_and_length_witness :
  bytes_fromhex (Some " 60 0a"%string) = inr [96; 10]
  /\ Forall (fun b => 0 <= b < 256) [96; 10]
  /\ (2 * List.length [96; 10] = String.length (remove_whitespace " 60 0a"))%nat.
Proof.
  assert (bytes_fromhex (Some " 60 0a"%string) = inr [96; 10]) as H1 by reflexivity.
  exact (conj H1 (fromhex_bytes_and_length " 60 0a" [96; 10] H1)).
Defined.

Lemma fromhex_append_witness :
  bytes_fromhex (Some "60 "%string) = inr [96]
  /\ bytes_fromhex (Some ("60 " ++ "0a")%string)
     = match bytes_fromhex (Some "0a"%string) with
       | inl e => inl e
       | inr y => inr ([96] ++ y)
       end.
Proof.
  assert (bytes_fromhex (Some "60 "%string) = inr [96]) as H1 by reflexivity.
  exact (conj H1 (fromhex_append "60 " "0a" [96] H1)).
Defined.

Lemma fromhex_ignores_case_witness :
  string_lower "60aB" = string_lower "60Ab"
  /\ bytes_fromhex (Some "60aB"%string) = bytes_fromhex (Some "60Ab"%string).
Proof.
  assert (string_lower "60aB" = string_lower "60Ab") as H1 by reflexivity.
  exact (conj H1 (fromhex_ignores_case "60aB" "60Ab" H1)).
Defined.

Lemma fromhex_hex_encode_witness :
  Forall (fun b => 0 <= b < 256) [96; 0; 171]
  /\ bytes_fromhex (Some (hex_encode [96; 0; 171])) = inr [96; 0; 171].
Proof.
  assert (Forall (fun b => 0 <= b < 256) [96; 0; 171]) as H1
    by (repeat constructor; lia).
  exact (conj H1 (fromhex_hex_encode [96; 0; 171] H1)).
Defined.

Section FurtherRuns.

Import Mock.
Local Existing Instance healthy.

Lemma blank_file_loads_as_no_bytes_witness :
  read_text blank_os "contract.hex" = Some blank_text
  /\ remove_whitespace blank_text = EmptyString
  /\ _load_contract_data blank_os (Some "contract.hex"%string) initial_world
     = (inr [], initial_world).
Proof.
  assert (read_text blank_os "contract.hex" = Some blank_text) as H1 by reflexivity.
  assert (remove_whitespace blank_text = EmptyString) as H2 by reflexivity.
  exact (conj H1 (conj H2
           (blank_file_loads_as_no_bytes healthy blank_os "contract.hex" blank_text
              initial_world H1 H2))).
Defined.

Lemma main_runs_witness :
  bytecode_text mock_os (mock_args 3) = Some contract_text
  /\ spaced_hex contract_text = true
  /\ calldata (mock_args 3) = Some EmptyString
  /\ spaced_hex EmptyString = true
  /\ num_runs (mock_args 3) = Some 3
  /\ int64_clock mock_os
  /\ is_success
       (EVM_result (fst (EVM_deploy EVM_new CALLER_ADDRESS
                           (bytes_of_digits (remove_whitespace contract_text))
                           GAS_LIMIT))) = true
  /\ calls_return (Z.to_nat 3)
       (fst (EVM_deploy EVM_new CALLER_ADDRESS
               (bytes_of_digits (remove_whitespace contract_text)) GAS_LIMIT))
       CALLER_ADDRESS
       (snd (EVM_deploy EVM_new CALLER_ADDRESS
               (bytes_of_digits (remove_whitespace contract_text)) GAS_LIMIT))
       (bytes_of_digits (remove_whitespace EmptyString))
  /\ exists lines : list float,
       main mock_os (mock_args 3) initial_world
       = (inr tt,
          {| clock_reads := clock_reads initial_world + 2 * Z.to_nat 3;
             trace := trace initial_world
                        ++ Deploy CALLER_ADDRESS
                             (bytes_of_digits (remove_whitespace contract_text))
                             GAS_LIMIT
                        :: loop_events mock_os CALLER_ADDRESS
                             (snd (EVM_deploy EVM_new CALLER_ADDRESS
                                     (bytes_of_digits
                                        (remove_whitespace contract_text))
                                     GAS_LIMIT))
                             (bytes_of_digits (remove_whitespace EmptyString))
                             (clock_reads initial_world) lines |})
       /\ List.length lines = Z.to_nat 3
       /\ exit_status (fst (main mock_os (mock_args 3) initial_world)) = 0.
Proof.
  assert (bytecode_text mock_os (mock_args 3) = Some contract_text) as H1
    by reflexivity.
  assert (spaced_hex contract_text = true) as H2 by reflexivity.
  assert (calldata (mock_args 3) = Some EmptyString) as H3 by reflexivity.
  assert (spaced_hex EmptyString = true) as H4 by reflexivity.
  assert (num_runs (mock_args 3) = Some 3) as H5 by reflexivity.
  assert (is_success
            (EVM_result (fst (EVM_deploy EVM_new CALLER_ADDRESS
                                (bytes_of_digits (remove_whitespace contract_text))
                                GAS_LIMIT))) = true) as H7 by reflexivity.
  assert (calls_return (Z.to_nat 3)
            (fst (EVM_deploy EVM_new CALLER_ADDRESS
                    (bytes_of_digits (remove_whitespace contract_text)) GAS_LIMIT))
            CALLER_ADDRESS
            (snd (EVM_deploy EVM_new CALLER_ADDRESS
                    (bytes_of_digits (remove_whitespace contract_text)) GAS_LIMIT))
            (bytes_of_digits (remove_whitespace EmptyString))) as H8
    by (apply mock_calls_return; reflexivity).
  exact (conj H1 (conj H2 (conj H3 (conj H4 (conj H5 (conj mock_clock_int64
           (conj H7 (conj H8
              (main_runs healthy mock_os (mock_args 3) initial_world contract_text
                 EmptyString 3 H1 H2 H3 H4 H5 mock_clock_int64 H7 H8))))))))).
Defined.

Lemma main_completes_only_if_witness :
  fst (main mock_os (mock_args 2) initial_world) = inr tt
  /\ exists (text arg : string) (N : Z),
       bytecode_text mock_os (mock_args 2) = Some text
       /\ spaced_hex text = true
       /\ calldata (mock_args 2) = Some arg
       /\ spaced_hex arg = true
       /\ num_runs (mock_args 2) = Some N
       /\ is_success
            (EVM_result (fst (EVM_deploy EVM_new CALLER_ADDRESS
                                (bytes_of_digits (remove_whitespace text))
                                GAS_LIMIT))) = true.
Proof.
  assert (fst (main mock_os (mock_args 2) initial_world) = inr tt) as H1
    by (vm_compute; reflexivity).
  exact (conj H1 (main_completes_only_if healthy mock_os (mock_args 2)
                    initial_world H1)).
Defined.

(** On the clock that goes back by 1000 ns at each reading, each of the
    two calls has an elapsed time of -1000 ns and a line below [0.0]. *)
Lemma negative_elapsed_is_printed_as_is_witness :
  int64_clock backward_os
  /\ is_success
       (EVM_result (fst (EVM_deploy EVM_new CALLER_ADDRESS contract_code GAS_LIMIT)))
     = true
  /\ calls_return (Z.to_nat 2)
       (fst (EVM_deploy EVM_new CALLER_ADDRESS contract_code GAS_LIMIT))
       CALLER_ADDRESS
       (snd (EVM_deploy EVM_new CALLER_ADDRESS contract_code GAS_LIMIT)) []
  /\ elapsed_ns backward_os (clock_reads initial_world) (Z.to_nat 2)
     = [-1000; -1000]
  /\ exists lines : list float,
       _benchmark backward_os EVM_new CALLER_ADDRESS contract_code [] (Some 2)
                  initial_world
       = (inr tt,
          {| clock_reads := clock_reads initial_world + 2 * Z.to_nat 2;
             trace := trace initial_world
                        ++ Deploy CALLER_ADDRESS contract_code GAS_LIMIT
                        :: loop_events backward_os CALLER_ADDRESS
                             (snd (EVM_deploy EVM_new CALLER_ADDRESS contract_code
                                     GAS_LIMIT)) []
                             (clock_reads initial_world) lines |})
       /\ printed (loop_events backward_os CALLER_ADDRESS
                     (snd (EVM_deploy EVM_new CALLER_ADDRESS contract_code
                             GAS_LIMIT)) []
                     (clock_reads initial_world) lines) = lines
       /\ Forall2 (fun ns x =>
                     int_truediv_float ns float_1e6 = inr x
                     /\ float_is_finite x = true
                     /\ (ns < 0 -> SFltb x (S754_zero false) = true)
                     /\ (0 < ns -> SFltb (S754_zero false) x = true))
                  (elapsed_ns backward_os (clock_reads initial_world) (Z.to_nat 2))
                  lines.
Proof.
  assert (is_success
            (EVM_result (fst (EVM_deploy EVM_new CALLER_ADDRESS contract_code
                                GAS_LIMIT)))
          = true) as H2 by reflexivity.
  assert (calls_return (Z.to_nat 2)
            (fst (EVM_deploy EVM_new CALLER_ADDRESS contract_code GAS_LIMIT))
            CALLER_ADDRESS
            (snd (EVM_deploy EVM_new CALLER_ADDRESS contract_code GAS_LIMIT)) [])
    as H3 by (apply mock_calls_return; reflexivity).
  assert (elapsed_ns backward_os (clock_reads initial_world) (Z.to_nat 2)
          = [-1000; -1000]) as H4 by reflexivity.
  exact (conj backward_clock_int64 (conj H2 (conj H3 (conj H4
           (negative_elapsed_is_printed_as_is healthy backward_os EVM_new
              CALLER_ADDRESS contract_code [] 2 initial_world
              backward_clock_int64 H2 H3))))).
Defined.

End FurtherRuns.

Section FailedRuns.

Import Mock.
Local Existing Instance reverting_calls.

(** A run that the engine ends on its first call. *)
Lemma main_exceptions_witness :
  fst (main mock_os (mock_args 3) initial_world) = inl (RuntimeError "revert")
  /\ RuntimeError "revert" <> Builtin ZeroDivisionError
  /\ (forall r, RuntimeError "revert" = AssertionError_result r ->
                is_success r = false)
  /\ (int64_clock mock_os -> RuntimeError "revert" <> Builtin OverflowError).
Proof.
  assert (fst (main mock_os (mock_args 3) initial_world)
          = inl (RuntimeError "revert")) as H1 by (vm_compute; reflexivity).
  exact (conj H1
           (main_exceptions reverting_calls mock_os (mock_args 3) initial_world
              (RuntimeError "revert") H1)).
Defined.

End FailedRuns.
